(** * er-ccapi-python: the authentication service and the GraphQL clients

    A shallow embedding of
      - er_ccapi_python/client/auth_service.py  (class AuthService)
      - er_ccapi_python/client/gql_client.py    (classes GraphqlClient and
        GraphqlClientWss)
    and the properties of the token cache, the refresh scheduler, the
    disposal of the service and the one-shot retry of a query.

    Python objects are records, attribute assignment is explicit state
    passing, and an exception is the [Raise] outcome of a computation; the
    state reached when an exception is raised is kept, as in Python.  The
    network, the file system and the third-party libraries (requests,
    apscheduler, gql, get_docker_secret) are an environment [env] of answers
    together with a [world] that logs every call the code makes to them. *)

From Stdlib Require Import ZArith NArith String Ascii List Lia DecimalString.
From stdpp Require Import base option list strings gmap.
From Equations Require Import Equations.

Local Open Scope Z_scope.


(** ** Python values, as far as this code observes them *)

(** A value read from the YAML configuration or from a JSON body.  The code
    only takes the truth value of such a value ([not v]), compares it with
    [None] and formats it ([f"{v}"]); a value that is neither [None], a
    string nor an integer (a float, a bool, a list, a dict) is kept as its
    truth value and its [str()]. *)
Inductive pyval : Type :=
| PyNone
| PyStr (s : string)
| PyInt (z : Z)
| PyOther (truth : bool) (shown : string).

(** [bool(v)]: what [not v] negates. *)
Definition truthy (v : pyval) : bool :=
  match v with
  | PyNone => false
  | PyStr s => negb (String.eqb s "")
  | PyInt z => negb (Z.eqb z 0)
  | PyOther t _ => t
  end.

(** [str(v)], what an f-string inserts for [{v}]. *)
Definition py_str (v : pyval) : string :=
  match v with
  | PyNone => "None"
  | PyStr s => s
  | PyInt z => NilZero.string_of_int (Z.to_int z)
  | PyOther _ sh => sh
  end.

(** [v is None] *)
Definition is_None (v : pyval) : bool :=
  match v with PyNone => true | _ => false end.

(** ** Exceptions *)

(** The exception classes this code raises, catches or lets through.
    [Timeout] and [JSONDecodeError] are the ones of [requests.exceptions];
    both are subclasses of [RequestException] (setup.py asks for
    requests >= 2.31, where [Response.json] raises the latter). *)
Inductive exn : Type :=
| ValueError (msg : string)
| KeyError (key : string)
| TypeError (msg : string)
| OSError
| Timeout
| JSONDecodeError
| RequestException
| GraphQLError
| TransportProtocolError
| TransportQueryError
| TransportClosed
| TransportServerError
| SchedulerNotRunningError
| OtherException (name : string).

(** [isinstance(e, requests.exceptions.Timeout)] *)
Definition is_Timeout (e : exn) : bool :=
  match e with Timeout => true | _ => false end.

(** [isinstance(e, requests.exceptions.RequestException)] *)
Definition is_RequestException (e : exn) : bool :=
  match e with Timeout | JSONDecodeError | RequestException => true | _ => false end.

(** [isinstance(e, gql.transport.exceptions.TransportProtocolError)] *)
Definition is_TransportProtocolError (e : exn) : bool :=
  match e with TransportProtocolError => true | _ => false end.

(** ** Computations: state and exceptions *)

Inductive result (A : Type) : Type :=
| Return (a : A)
| Raise (e : exn).
Arguments Return {A} a.
Arguments Raise {A} e.

(** A method body: it runs in a state [S], returns or raises, and leaves
    a state behind in both cases. *)
Definition M (S A : Type) : Type := S -> result A * S.

Definition ret {S A} (a : A) : M S A := fun s => (Return a, s).

Definition raise {S A} (e : exn) : M S A := fun s => (Raise e, s).

Definition bind {S A B} (m : M S A) (k : A -> M S B) : M S B :=
  fun s => match m s with
           | (Return a, s') => k a s'
           | (Raise e, s') => (Raise e, s')
           end.

Definition get {S} : M S S := fun s => (Return s, s).

Definition modify {S} (f : S -> S) : M S unit := fun s => (Return tt, f s).

(** The [except] clauses of a [try], in order: the first clause whose
    classes match the exception runs; without a match it goes on. *)
Fixpoint handle {S A} (clauses : list ((exn -> bool) * (exn -> M S A))) (e : exn) : M S A :=
  match clauses with
  | [] => raise e
  | (catches, handler) :: rest => if catches e then handler e else handle rest e
  end.

(** [try: body  except C1: h1  except C2: h2 ...] *)
Definition try_except {S A} (body : M S A)
    (clauses : list ((exn -> bool) * (exn -> M S A))) : M S A :=
  fun s => match body s with
           | (Return a, s') => (Return a, s')
           | (Raise e, s') => handle clauses e s'
           end.

(** [try: body  finally: cleanup], for a cleanup that cannot raise. *)
Definition try_finally {S A} (body : M S A) (cleanup : S -> S) : M S A :=
  fun s => let '(r, s') := body s in (r, cleanup s').

(** Run a computation on one component of a pair of states. *)
Definition on_snd {S W A} (m : M W A) : M (S * W) A :=
  fun sw => let '(r, w') := m (snd sw) in (r, (fst sw, w')).

Definition lift_result {S A} (r : result A) : M S A := fun s => (r, s).

Declare Scope py_scope.
Delimit Scope py_scope with py.
Notation "'let*' x ':=' m 'in' k" := (bind m (fun x => k))
  (at level 10, x name, m at level 100, k at level 200) : py_scope.
Local Open Scope py_scope.

(** ** Strings: [str.strip] and [base64.b64encode] *)

(** Text is kept as its UTF-8 bytes, so [str.encode()] and
    [bytes.decode("utf-8")] are the identity.  The characters that
    [str.strip()] removes are those of [str.isspace]: U+0009 to U+000D,
    U+001C to U+0020, U+0085, U+00A0, U+1680, U+2000 to U+200A, U+2028,
    U+2029, U+202F, U+205F and U+3000.  [is_space] is the test on a
    character of one byte, [is_space2] and [is_space3] on the two and the
    three bytes of a longer one. *)
Definition is_space (a : ascii) : bool :=
  let n := N_of_ascii a in
  (((9 <=? n) && (n <=? 13)) || ((28 <=? n) && (n <=? 32)))%N.

Definition is_space2 (a b : ascii) : bool :=
  let m := N_of_ascii a in
  let n := N_of_ascii b in
  ((m =? 194) && ((n =? 133) || (n =? 160)))%N.

Definition is_space3 (a b c : ascii) : bool :=
  let m := N_of_ascii a in
  let n := N_of_ascii b in
  let k := N_of_ascii c in
  (((m =? 225) && (n =? 154) && (k =? 128))
   || ((m =? 226) && (n =? 128)
       && (((128 <=? k) && (k <=? 138)) || (k =? 168) || (k =? 169) || (k =? 175)))
   || ((m =? 226) && (n =? 129) && (k =? 159))
   || ((m =? 227) && (n =? 128) && (k =? 128)))%N.

(** The text without its leading white space; [two] and [three] recognize
    the white space of two and three bytes in the order the bytes come. *)
Fixpoint strip_leading (two : ascii -> ascii -> bool)
    (three : ascii -> ascii -> ascii -> bool) (s : string) : string :=
  match s with
  | EmptyString => EmptyString
  | String a r =>
      if is_space a then strip_leading two three r
      else
        match r with
        | String b r2 =>
            if two a b then strip_leading two three r2
            else
              match r2 with
              | String c r3 => if three a b c then strip_leading two three r3 else s
              | EmptyString => s
              end
        | EmptyString => s
        end
  end.

(** [s.lstrip()] *)
Definition lstrip (s : string) : string := strip_leading is_space2 is_space3 s.

(** [s.rstrip()]: the same on the reversed bytes. *)
Definition rstrip (s : string) : string :=
  String.rev
    (strip_leading (fun a b => is_space2 b a) (fun a b c => is_space3 c b a)
       (String.rev s)).

(** [s.strip()] *)
Definition strip (s : string) : string := rstrip (lstrip s).

(** The 64 digits of RFC 4648. *)
Definition b64_digit (n : N) : ascii :=
  (if n <? 26 then ascii_of_N (65 + n)
   else if n <? 52 then ascii_of_N (97 + (n - 26))
   else if n <? 62 then ascii_of_N (48 + (n - 52))
   else if n =? 62 then "+"%char
   else "/"%char)%N.

Fixpoint b64_bytes (l : list N) : string :=
  match l with
  | a :: b :: c :: r =>
      String (b64_digit (N.div a 4))
        (String (b64_digit (N.modulo a 4 * 16 + N.div b 16)%N)
           (String (b64_digit (N.modulo b 16 * 4 + N.div c 64)%N)
              (String (b64_digit (N.modulo c 64)) (b64_bytes r))))
  | [a; b] =>
      String (b64_digit (N.div a 4))
        (String (b64_digit (N.modulo a 4 * 16 + N.div b 16)%N)
           (String (b64_digit (N.modulo b 16 * 4)%N) "="))
  | [a] =>
      String (b64_digit (N.div a 4))
        (String (b64_digit (N.modulo a 4 * 16)%N) "==")
  | [] => ""
  end.

Definition bytes_of_string (s : string) : list N :=
  map N_of_ascii (list_ascii_of_string s).

(** [base64.b64encode(s.encode()).decode("utf-8")] *)
Definition b64encode (s : string) : string := b64_bytes (bytes_of_string s).

(** [s.startswith(p)] *)
Fixpoint startswith (p s : string) : bool :=
  match p, s with
  | EmptyString, _ => true
  | String a p', String b s' => Ascii.eqb a b && startswith p' s'
  | String _ _, EmptyString => false
  end.

(** [s.replace(old, new)] for a non-empty [old]: the occurrences of [old]
    are replaced from left to right and do not overlap; [skip] counts the
    characters of a replaced occurrence that are still to be passed. *)
Fixpoint replace_from (old new : string) (skip : nat) (s : string) : string :=
  match s with
  | EmptyString => EmptyString
  | String c r =>
      match skip with
      | S k => replace_from old new k r
      | O =>
          if startswith old s
          then new +:+ replace_from old new (String.length old - 1) r
          else String c (replace_from old new 0 r)
      end
  end.

(** [s.replace("", new)]: [new] before every character and at the end. *)
Fixpoint replace_empty (new s : string) : string :=
  match s with
  | EmptyString => new
  | String c r => new +:+ String c (replace_empty new r)
  end.

(** [s.replace(old, new)] *)
Definition str_replace (old new s : string) : string :=
  match old with
  | EmptyString => replace_empty new s
  | String _ _ => replace_from old new 0 s
  end.

(** ** The outside: requests, apscheduler, gql, files *)

(** A decoded JSON document: a Python dict, or anything else (a list, a
    string, a number, a bool, null). *)
Inductive json : Type :=
| JsonDict (d : gmap string pyval)
| JsonOther.

(** [requests.Response]: [body] is [None] when the text is not JSON. *)
Record response : Type := {
  status_code : Z;
  body : option json }.

(** One call [requests.post(url, json=..., headers=..., timeout=...)]. *)
Record http_request : Type := {
  url : pyval;
  json_payload : gmap string pyval;
  headers : gmap string string;
  timeout : Z }.

(** A job of a scheduler: [add_job(f, "interval", seconds=..., max_instances=...)]. *)
Record job : Type := {
  seconds : pyval;
  max_instances : Z }.

(** An [apscheduler] [BackgroundScheduler] object. *)
Record scheduler : Type := {
  running : bool;
  starts : nat;
  jobs : list job;
  shutdowns : nat }.

(** A [gql] transport as [_initialize_client] builds it. *)
Record transport : Type := {
  transport_url : pyval;
  transport_headers : option (gmap string string) }.

(** What the outside answers.  The i-th POST to the token endpoint and the
    i-th [Client.execute] get the i-th answer; an answer is a value or an
    exception.  [read_file] is the text that [open(path).read()] returns.
    [add_job_fault] is what [add_job] raises for a job it refuses: the
    code hands it the configured refresh interval as it is, and apscheduler
    raises for a value that is no number of seconds.  [shutdown_fault] is a
    failure of [shutdown] on a running scheduler: what it raises, and
    whether the scheduler still runs afterwards. *)
Record env : Type := {
  post_answer : nat -> result response;
  execute_answer : nat -> result (gmap string pyval);
  get_docker_secret : pyval -> result pyval;
  read_file : pyval -> result string;
  add_job_fault : job -> option exn;
  shutdown_fault : option (exn * bool);
  schema_fault : option exn }.

(** One call [client.execute(query, query_parameters)], with the transport
    the client had at that moment. *)
Record execution : Type := {
  exec_transport : option transport;
  exec_query : string;
  exec_parameters : gmap string pyval }.

(** What the code has done to the outside so far: the POSTs issued, the
    scheduler objects created (a scheduler is referred to by its position),
    the transports built and the calls of [execute]. *)
Record world : Type := {
  posts : list http_request;
  schedulers : list scheduler;
  transports : list transport;
  executes : list execution }.

Definition set_posts (f : list http_request -> list http_request) (w : world) : world :=
  {| posts := f (posts w); schedulers := schedulers w;
     transports := transports w; executes := executes w |}.

Definition set_schedulers (f : list scheduler -> list scheduler) (w : world) : world :=
  {| posts := posts w; schedulers := f (schedulers w);
     transports := transports w; executes := executes w |}.

Definition set_transports (f : list transport -> list transport) (w : world) : world :=
  {| posts := posts w; schedulers := schedulers w;
     transports := f (transports w); executes := executes w |}.

Definition set_executes (f : list execution -> list execution) (w : world) : world :=
  {| posts := posts w; schedulers := schedulers w;
     transports := transports w; executes := f (executes w) |}.

Definition empty_world : world :=
  {| posts := []; schedulers := []; transports := []; executes := [] |}.

(** [d[k]] on a dict *)
Definition getitem (d : gmap string pyval) (k : string) : result pyval :=
  match d !! k with
  | Some v => Return v
  | None => Raise (KeyError k)
  end.

Definition is_KeyError (e : exn) : bool :=
  match e with KeyError _ => true | _ => false end.

(** [v.replace(old, new)] on a configuration value: only a string has
    this method ([None], a number, a bool, a list or a dict raise
    [AttributeError]). *)
Definition py_replace (v : pyval) (old new : string) : result pyval :=
  match v with
  | PyStr s => Return (PyStr (str_replace old new s))
  | _ => Raise (OtherException "AttributeError")
  end.

Section Outside.
Context (E : env).

(** [requests.post]: the request is logged, the answer is the next one. *)
Definition requests_post (u : pyval) (payload : gmap string pyval)
    (hs : gmap string string) (tmo : Z) : M world response :=
  fun w =>
    (post_answer E (length (posts w)),
     set_posts (fun l => l ++ [ {| url := u; json_payload := payload;
                                   headers := hs; timeout := tmo |} ]) w).

(** [response.json()] *)
Definition response_json (r : response) : result json :=
  match body r with
  | Some j => Return j
  | None => Raise JSONDecodeError
  end.

(** [j[k]] on a decoded JSON document *)
Definition json_getitem (j : json) (k : string) : result pyval :=
  match j with
  | JsonDict d => getitem d k
  | JsonOther => Raise (TypeError "indices must be integers")
  end.

(** [BackgroundScheduler()]: a new stopped scheduler without jobs.  The
    code passes nothing to it, nor to [start]: both are taken to return
    on a new scheduler. *)
Definition BackgroundScheduler : M world nat :=
  fun w =>
    (Return (length (schedulers w)),
     set_schedulers
       (fun l => l ++ [ {| running := false; starts := 0; jobs := []; shutdowns := 0 |} ]) w).

(** A method call on the scheduler object [id]. *)
Definition on_scheduler (id : nat) (f : scheduler -> result unit * scheduler) : M world unit :=
  fun w =>
    match schedulers w !! id with
    | Some sch => let '(r, sch') := f sch in (r, set_schedulers (fun l => <[id := sch']> l) w)
    | None => (Return tt, w)
    end.

(** [scheduler.start()] *)
Definition start (id : nat) : M world unit :=
  on_scheduler id (fun sch =>
    if running sch then (Raise (OtherException "SchedulerAlreadyRunningError"), sch)
    else (Return tt, {| running := true; starts := S (starts sch);
                        jobs := jobs sch; shutdowns := shutdowns sch |})).

(** [scheduler.add_job(f, "interval", seconds=s, max_instances=m)]: a job
    that is refused is not added. *)
Definition add_job (id : nat) (j : job) : M world unit :=
  on_scheduler id (fun sch =>
    match add_job_fault E j with
    | Some e => (Raise e, sch)
    | None =>
        (Return tt, {| running := running sch; starts := starts sch;
                       jobs := jobs sch ++ [j]; shutdowns := shutdowns sch |})
    end).

(** [scheduler.shutdown()]: raises when the scheduler is not running, or
    when the environment makes it fail. *)
Definition shutdown (id : nat) : M world unit :=
  on_scheduler id (fun sch =>
    if negb (running sch) then
      (Raise SchedulerNotRunningError,
       {| running := false; starts := starts sch;
          jobs := jobs sch; shutdowns := S (shutdowns sch) |})
    else match shutdown_fault E with
         | Some (e, still_running) =>
             (Raise e, {| running := still_running; starts := starts sch;
                          jobs := jobs sch; shutdowns := S (shutdowns sch) |})
         | None => (Return tt, {| running := false; starts := starts sch;
                                  jobs := jobs sch; shutdowns := S (shutdowns sch) |})
         end).
End Outside.

(** ** auth_service.py: class AuthService *)

Module AuthService.

(** The attributes of an instance.  [__auth_scheduler] is [None] or a
    reference to a scheduler object of the world. *)
Record t : Type := {
  __access_token : pyval;
  __auth_scheduler : option nat;
  __endpoint : pyval;
  __login_credentials : string;
  __refresh_interval : pyval;
  __timeout : Z }.

Definition set_access_token (v : pyval) (self : t) : t :=
  {| __access_token := v; __auth_scheduler := __auth_scheduler self;
     __endpoint := __endpoint self; __login_credentials := __login_credentials self;
     __refresh_interval := __refresh_interval self; __timeout := __timeout self |}.

Definition set_auth_scheduler (o : option nat) (self : t) : t :=
  {| __access_token := __access_token self; __auth_scheduler := o;
     __endpoint := __endpoint self; __login_credentials := __login_credentials self;
     __refresh_interval := __refresh_interval self; __timeout := __timeout self |}.

(** The object a call [AuthService(config)] leaves.  Python makes the
    object, runs [__init__] on it, and finalizes it with [__del__] whether
    [__init__] returned or raised.  Lines 48-49 assign the first two
    attributes: an object whose [__init__] raised before them is [Blank],
    it has no [__auth_scheduler]; one whose [__init__] raised after them
    (lines 51-58) is [Reset], its token and its scheduler are [None] and it
    has no other attribute of the class. *)
Inductive object : Type :=
| Blank
| Reset
| Instance (me : t).

(** [self.__auth_scheduler], read from such an object. *)
Definition auth_scheduler_of (o : object) : result (option nat) :=
  match o with
  | Blank => Raise (OtherException "AttributeError")
  | Reset => Return None
  | Instance me => Return (__auth_scheduler me)
  end.

(** [self.x = v] inside a method that also reaches the world. *)
Definition assign (f : t -> t) : M (t * world) unit :=
  modify (fun sw => (f (fst sw), snd sw)).

Definition self : M (t * world) t := fun sw => (Return (fst sw), sw).

(** [__deepcopy__], lines 68-89: every attribute but the scheduler is
    copied (the values are immutable, a copy is the value), then the token
    and the scheduler of the copy are reset.  The result is the copy; the
    instance itself is not changed. *)
Definition __deepcopy__ (me : t) : t :=
  set_auth_scheduler None
    (set_access_token PyNone
       {| __access_token := __access_token me;
          __auth_scheduler := None;
          __endpoint := __endpoint me;
          __login_credentials := __login_credentials me;
          __refresh_interval := __refresh_interval me;
          __timeout := __timeout me |}).

Section Methods.
Context (E : env).

(** [__init__], lines 20-46: the settings [endpoint], [user_email],
    [user_api_key] and [refresh_interval].  The key given as [user_api_key]
    is read and then overwritten: the key is the stripped text of the file
    [user_api_key_file], and there is none without that file. *)
Definition __init___settings (config : gmap string (gmap string pyval))
    : M world (pyval * pyval * pyval * pyval) :=
  match config !! "auth_service" with
  | None => raise (ValueError "Config must contain auth_service parameters.")
  | Some section =>
      let* endpoint := lift_result (getitem section "endpoint") in
      let* user_email := lift_result (getitem section "user_email") in
      let* user_api_key_file := lift_result (getitem section "user_api_key_file") in
      let* user_api_key :=
        try_except (lift_result (getitem section "user_api_key"))
          [(is_KeyError, fun _ => ret PyNone)] in
      let* user_api_key :=
        if is_None user_api_key_file then ret PyNone
        else lift_result (get_docker_secret E user_api_key_file) in
      let* user_api_key :=
        if negb (is_None user_api_key_file)
        then let* text := lift_result (read_file E user_api_key_file) in
             ret (PyStr (strip text))
        else ret user_api_key in
      let* refresh_interval :=
        try_except (lift_result (getitem section "refresh_interval"))
          [(is_KeyError, fun _ => ret (PyInt 300))] in
      ret (endpoint, user_email, user_api_key, refresh_interval)
  end.

(** [__init__], lines 48-66: the token and the scheduler are set to
    [None], the settings are checked, and the other attributes assigned. *)
Definition __init___attributes (settings : pyval * pyval * pyval * pyval) : result t :=
  let '(endpoint, user_email, user_api_key, refresh_interval) := settings in
  if negb (truthy endpoint) then
    Raise (ValueError "Auth service endpoint must be provided.")
  else if negb (truthy user_email) then
    Raise (ValueError "User email must be provided.")
  else if negb (truthy user_api_key) then
    Raise (ValueError "User api key must be provided.")
  else if negb (truthy refresh_interval) then
    Raise (ValueError "Refresh interval must be provided.")
  else
    Return {| __access_token := PyNone;
              __auth_scheduler := None;
              __endpoint := endpoint;
              __login_credentials :=
                b64encode (py_str user_email +:+ ":" +:+ py_str user_api_key);
              __refresh_interval := refresh_interval;
              __timeout := 5 |}.

(** [__init__], lines 20-66: the outcome of the call [AuthService(config)]. *)
Definition __init__ (config : gmap string (gmap string pyval)) : M world t :=
  let* settings := __init___settings config in
  lift_result (__init___attributes settings).

(** The object that the call [AuthService(config)] leaves to [__del__]. *)
Definition constructed (config : gmap string (gmap string pyval)) (w : world) : object :=
  match __init___settings config w with
  | (Raise _, _) => Blank
  | (Return settings, _) =>
      match __init___attributes settings with
      | Raise _ => Reset
      | Return me => Instance me
      end
  end.

(** [_handle_access_token], lines 118-140. *)
Definition _handle_access_token (login_credentials : string) (tmo : Z)
    : M (t * world) unit :=
  let hs : gmap string string :=
    {[ "Content-Type" := "application/json";
       "authorization" := "Basic " +:+ login_credentials ]} in
  try_except
    (let* me := self in
     let* response := on_snd (requests_post E (__endpoint me) ∅ hs tmo) in
     if (200 <=? status_code response) && (status_code response <? 300) then
       let* json_response := lift_result (response_json response) in
       let* token := lift_result (json_getitem json_response "access_token") in
       assign (set_access_token token)
     else
       assign (set_access_token PyNone))
    [(is_Timeout, fun _ => assign (set_access_token PyNone));
     (is_RequestException, fun _ => assign (set_access_token PyNone))].

(** [_authenticate], lines 100-116. *)
Definition _authenticate : M (t * world) unit :=
  let* me := self in
  let* _ := _handle_access_token (__login_credentials me) (__timeout me) in
  let* me := self in
  match __auth_scheduler me with
  | None =>
      let* id := on_snd BackgroundScheduler in
      let* _ := assign (set_auth_scheduler (Some id)) in
      let* _ := on_snd (start id) in
      on_snd (add_job E id {| seconds := __refresh_interval me; max_instances := 1 |})
  | Some _ => ret tt
  end.

(** [get_bearer_token], lines 142-154. *)
Definition get_bearer_token : M (t * world) (option string) :=
  let* me := self in
  let* _ :=
    if negb (truthy (__access_token me)) || bool_decide (__auth_scheduler me = None)
    then _authenticate else ret tt in
  let* me := self in
  if negb (truthy (__access_token me)) then ret None
  else ret (Some ("Bearer " +:+ py_str (__access_token me))).

(** [get_auth_header], lines 156-163.  [not bearer] holds for [None] and
    for the empty string. *)
Definition get_auth_header : M (t * world) (option (gmap string string)) :=
  let* bearer := get_bearer_token in
  match bearer with
  | None => ret None
  | Some b =>
      if String.eqb b "" then ret None
      else ret (Some {[ "authorization" := b ]})
  end.

(** [__del__], lines 91-98, on the object Python finalizes.  Line 93 reads
    [self.__auth_scheduler] outside the [try]; the bare [except:] catches
    everything the shutdown raises. *)
Definition __del__ : M (object * world) unit :=
  let* scheduler := (fun ow => (auth_scheduler_of (fst ow), ow)) in
  match scheduler with
  | Some id => try_except (on_snd (shutdown E id)) [(fun _ => true, fun _ => ret tt)]
  | None => ret tt
  end.

(** The job given to [add_job]: one refresh.  The scheduler runs it when
    an interval has passed, if it is running and has the job, and keeps
    an exception of the job to itself. *)
Definition tick : M (t * world) unit :=
  let* me := self in
  match __auth_scheduler me with
  | Some id =>
      fun sw =>
        match schedulers (snd sw) !! id with
        | Some sch =>
            if running sch && negb (bool_decide (jobs sch = [])) then
              try_except
                (_handle_access_token (__login_credentials me) (__timeout me))
                [(fun _ => true, fun _ => ret tt)] sw
            else (Return tt, sw)
        | None => (Return tt, sw)
        end
  | None => ret tt
  end.
End Methods.
End AuthService.

(** ** gql_client.py: class GraphqlClient *)

Module GraphqlClient.

(** The attributes of an instance.  [client] is the transport of the
    [gql] client, [None] until [_initialize_client] has set it. *)
Record t : Type := {
  _reauthenticated : bool;
  _config : gmap string (gmap string pyval);
  _auth_service : AuthService.t;
  client : option transport }.

Definition set_reauthenticated (b : bool) (self : t) : t :=
  {| _reauthenticated := b; _config := _config self;
     _auth_service := _auth_service self; client := client self |}.

Definition set_auth_service (a : AuthService.t) (self : t) : t :=
  {| _reauthenticated := _reauthenticated self; _config := _config self;
     _auth_service := a; client := client self |}.

Definition set_client (c : option transport) (self : t) : t :=
  {| _reauthenticated := _reauthenticated self; _config := _config self;
     _auth_service := _auth_service self; client := c |}.

Definition assign (f : t -> t) : M (t * world) unit :=
  modify (fun sw => (f (fst sw), snd sw)).

Definition self : M (t * world) t := fun sw => (Return (fst sw), sw).

(** A method call on [self._auth_service]. *)
Definition on_auth_service {A} (m : M (AuthService.t * world) A) : M (t * world) A :=
  fun sw =>
    let '(r, (a, w)) := m (_auth_service (fst sw), snd sw) in
    (r, (set_auth_service a (fst sw), w)).

(** [d[k]] where [d] is the result of [dict.get]: [None] is not subscriptable. *)
Definition subscript (d : option (gmap string pyval)) (k : string) : result pyval :=
  match d with
  | Some d => getitem d k
  | None => Raise (TypeError "'NoneType' object is not subscriptable")
  end.

Section Methods.
Context (E : env).

(** Reading and building the schema (schema.graphql, [parse],
    [build_ast_schema]) succeeds or raises as the environment says. *)
Definition load_schema : result unit :=
  match schema_fault E with
  | Some e => Raise e
  | None => Return tt
  end.

(** [_initialize_client], lines 44-62. *)
Definition _initialize_client : M (t * world) unit :=
  let* header := on_auth_service (AuthService.get_auth_header E) in
  let* _ := lift_result load_schema in
  let* me := self in
  let api_settings := _config me !! "api" in
  let* production := lift_result (subscript api_settings "production_deployment") in
  let* api_url :=
    if truthy production then lift_result (subscript api_settings "prod_url")
    else lift_result (subscript api_settings "dev_url") in
  let tr := {| transport_url := api_url; transport_headers := header |} in
  let* _ := on_snd (modify (set_transports (fun l => l ++ [tr]))) in
  assign (set_client (Some tr)).

(** [__init__], lines 27-35, with [_init_auth_service], lines 37-42. *)
Definition __init__ (config : gmap string (gmap string pyval)) : M world t :=
  let* auth := AuthService.__init__ E config in
  fun w =>
    let '(r, (me, w')) :=
      _initialize_client
        ({| _reauthenticated := false; _config := config;
            _auth_service := auth; client := None |}, w) in
    match r with
    | Return _ => (Return me, w')
    | Raise e => (Raise e, w')
    end.

(** [self.client.execute(query, query_parameters)]: the call is logged,
    the answer is the next one of the environment. *)
Definition execute (q : string) (params : gmap string pyval)
    : M (t * world) (gmap string pyval) :=
  fun sw =>
    (execute_answer E (length (executes (snd sw))),
     (fst sw,
      set_executes (fun l => l ++ [ {| exec_transport := client (fst sw);
                                      exec_query := q;
                                      exec_parameters := params |} ]) (snd sw))).

(** The body of [query], lines 115-146, where [query_again] stands for
    the call [self.query(query=query, query_parameters=query_parameters)]
    of line 130.  The [try] statement yields [Some response] when it
    executes [return response], and [None] when it runs to its end:
    then line 146 returns the empty dict.  Every clause other than the
    one for [TransportProtocolError] logs and re-raises. *)
Definition query_body (query_again : M (t * world) (gmap string pyval))
    (q : string) (params : gmap string pyval)
    : M (t * world) (gmap string pyval) :=
  let* returned :=
    try_finally
      (try_except
         (let* response := execute q params in
          ret (Some response))
         [ ((fun e => match e with GraphQLError => true | _ => false end),
            fun e => raise e);
           (is_TransportProtocolError,
            fun e =>
              let* me := self in
              if _reauthenticated me then raise e
              else
                let* _ := _initialize_client in
                let* _ := assign (set_reauthenticated true) in
                let* _ := query_again in
                ret None);
           ((fun e => match e with TransportQueryError => true | _ => false end),
            fun e => raise e);
           ((fun e => match e with TransportClosed => true | _ => false end),
            fun e => raise e);
           ((fun e => match e with TransportServerError => true | _ => false end),
            fun e => raise e);
           ((fun _ => true), fun e => raise e) ])
      (fun sw => (set_reauthenticated false (fst sw), snd sw)) in
  match returned with
  | Some response => ret response
  | None => ret ∅
  end.

(** How many more times [query] may call itself: once while
    [_reauthenticated] is [False], never once it is [True]. *)
Definition retries_left (sw : t * world) : nat :=
  if _reauthenticated (fst sw) then 0 else 1.

(** [query], lines 107-146: [query_body] calling itself.  The call of
    line 130 happens with [_reauthenticated] just set to [True], from a
    call that found it [False], so the recursion is well founded on
    [retries_left]; [query_unfold] below shows that the guard written
    here for that purpose is always passed. *)
Equations query (q : string) (params : gmap string pyval) (sw : t * world)
    : result (gmap string pyval) * (t * world) by wf (retries_left sw) lt :=
  query q params sw :=
    query_body
      (fun sw' =>
         match lt_dec (retries_left sw') (retries_left sw) with
         | left smaller => query q params sw'
         | right _ => (Raise (OtherException "RecursionError"), sw')
         end)
      q params sw.

(** [query_async], lines 65-105.  [self.client.execute_async] is
    answered like [execute].  Line 89 calls the synchronous [query] and
    awaits what it returns, a dict: [await] raises [TypeError]. *)
Definition query_async (q : string) (params : gmap string pyval)
    : M (t * world) (gmap string pyval) :=
  let* returned :=
    try_finally
      (try_except
         (let* response := execute q params in
          ret (Some response))
         [ ((fun e => match e with GraphQLError => true | _ => false end),
            fun e => raise e);
           (is_TransportProtocolError,
            fun e =>
              let* me := self in
              if _reauthenticated me then raise e
              else
                let* _ := _initialize_client in
                let* _ := assign (set_reauthenticated true) in
                let* _ := query q params in
                raise (TypeError "object dict can't be used in 'await' expression"));
           ((fun e => match e with TransportQueryError => true | _ => false end),
            fun e => raise e);
           ((fun e => match e with TransportClosed => true | _ => false end),
            fun e => raise e);
           ((fun e => match e with TransportServerError => true | _ => false end),
            fun e => raise e);
           ((fun _ => true), fun e => raise e) ])
      (fun sw => (set_reauthenticated false (fst sw), snd sw)) in
  match returned with
  | Some response => ret response
  | None => ret ∅
  end.
End Methods.
End GraphqlClient.

(** ** gql_client.py: class GraphqlClientWss *)

Module GraphqlClientWss.

(** The attributes of an instance.  [__init__] does not assign
    [_reauthenticated]: the attribute is missing ([None]) until the
    [finally] of a first [query] has assigned it.  [self._config] is the
    dict the caller passed, not a copy: it is kept beside the world, in the
    state every method runs in. *)
Record t : Type := {
  _reauthenticated : option bool;
  _auth_service : AuthService.t;
  client : option transport }.

(** The store of a method: the configuration dict and the world. *)
Definition store : Type := (gmap string (gmap string pyval) * world)%type.

Definition set_reauthenticated (b : option bool) (self : t) : t :=
  {| _reauthenticated := b; _auth_service := _auth_service self; client := client self |}.

Definition set_auth_service (a : AuthService.t) (self : t) : t :=
  {| _reauthenticated := _reauthenticated self; _auth_service := a; client := client self |}.

Definition set_client (c : option transport) (self : t) : t :=
  {| _reauthenticated := _reauthenticated self; _auth_service := _auth_service self;
     client := c |}.

Definition assign (f : t -> t) : M (t * store) unit :=
  modify (fun sw => (f (fst sw), snd sw)).

Definition self : M (t * store) t := fun sw => (Return (fst sw), sw).

(** [self._config] *)
Definition config : M (t * store) (gmap string (gmap string pyval)) :=
  fun sw => (Return (fst (snd sw)), sw).

(** A computation on the world alone. *)
Definition on_world {A} (m : M world A) : M (t * store) A :=
  fun sw =>
    let '(r, w) := m (snd (snd sw)) in
    (r, (fst sw, (fst (snd sw), w))).

(** A method call on [self._auth_service]. *)
Definition on_auth_service {A} (m : M (AuthService.t * world) A) : M (t * store) A :=
  fun sw =>
    let '(r, (a, w)) := m (_auth_service (fst sw), snd (snd sw)) in
    (r, (set_auth_service a (fst sw), (fst (snd sw), w))).

Section Methods.
Context (E : env).

(** [_init_auth_service], lines 158-168: the [dev_url] of the caller's
    configuration is rewritten in place, then the AuthService is built
    from that configuration. *)
Definition _init_auth_service : M store AuthService.t :=
  fun cw =>
    let api_settings := fst cw !! "api" in
    match GraphqlClient.subscript api_settings "dev_url" with
    | Raise e => (Raise e, cw)
    | Return dev_url =>
        match py_replace dev_url "http" "ws" with
        | Raise e => (Raise e, cw)
        | Return rewritten =>
            let config' :=
              match api_settings with
              | Some api => <["api" := <["dev_url" := rewritten]> api]> (fst cw)
              | None => fst cw
              end in
            let '(r, w) := AuthService.__init__ E config' (snd cw) in
            (r, (config', w))
        end
    end.

(** [_initialize_client], lines 170-200. *)
Definition _initialize_client : M (t * store) unit :=
  let* header := on_auth_service (AuthService.get_auth_header E) in
  let* _ := lift_result (GraphqlClient.load_schema E) in
  let* cfg := config in
  let api_settings := cfg !! "api" in
  let* production :=
    lift_result (GraphqlClient.subscript api_settings "production_deployment") in
  let* api_url :=
    if truthy production then lift_result (GraphqlClient.subscript api_settings "prod_url")
    else lift_result (GraphqlClient.subscript api_settings "dev_url") in
  let* api_url := lift_result (py_replace api_url "http" "ws") in
  let tr := {| transport_url := api_url; transport_headers := header |} in
  let* _ := on_world (modify (set_transports (fun l => l ++ [tr]))) in
  assign (set_client (Some tr)).

(** [__init__], lines 151-156.  The instance it returns has no
    [_reauthenticated]. *)
Definition __init__ : M store t :=
  let* auth := _init_auth_service in
  fun cw =>
    let '(r, (me, cw')) :=
      _initialize_client
        ({| _reauthenticated := None; _auth_service := auth; client := None |}, cw) in
    match r with
    | Return _ => (Return me, cw')
    | Raise e => (Raise e, cw')
    end.

(** [self.client.execute(query, query_parameters)] *)
Definition execute (q : string) (params : gmap string pyval)
    : M (t * store) (gmap string pyval) :=
  fun sw =>
    (execute_answer E (length (executes (snd (snd sw)))),
     (fst sw,
      (fst (snd sw),
       set_executes (fun l => l ++ [ {| exec_transport := client (fst sw);
                                       exec_query := q;
                                       exec_parameters := params |} ])
         (snd (snd sw))))).

(** The body of [query], lines 210-242, where [query_again] is the call of
    line 226.  Reading [self._reauthenticated] (line 218) raises
    [AttributeError] while the attribute is missing. *)
Definition query_body (query_again : M (t * store) (gmap string pyval))
    (q : string) (params : gmap string pyval)
    : M (t * store) (gmap string pyval) :=
  let* returned :=
    try_finally
      (try_except
         (let* response := execute q params in
          ret (Some response))
         [ ((fun e => match e with GraphQLError => true | _ => false end),
            fun e => raise e);
           (is_TransportProtocolError,
            fun e =>
              let* me := self in
              match _reauthenticated me with
              | None => raise (OtherException "AttributeError")
              | Some true => raise e
              | Some false =>
                  let* _ := _initialize_client in
                  let* _ := assign (set_reauthenticated (Some true)) in
                  let* _ := query_again in
                  ret None
              end);
           ((fun e => match e with TransportQueryError => true | _ => false end),
            fun e => raise e);
           ((fun e => match e with TransportClosed => true | _ => false end),
            fun e => raise e);
           ((fun e => match e with TransportServerError => true | _ => false end),
            fun e => raise e);
           ((fun _ => true), fun e => raise e) ])
      (fun sw => (set_reauthenticated (Some false) (fst sw), snd sw)) in
  match returned with
  | Some response => ret response
  | None => ret ∅
  end.

(** How many more times [query] may call itself. *)
Definition retries_left (sw : t * store) : nat :=
  match _reauthenticated (fst sw) with
  | Some false => 1
  | _ => 0
  end.

(** [query], lines 202-242, by the same recursion as [GraphqlClient.query]. *)
Equations query (q : string) (params : gmap string pyval) (sw : t * store)
    : result (gmap string pyval) * (t * store) by wf (retries_left sw) lt :=
  query q params sw :=
    query_body
      (fun sw' =>
         match lt_dec (retries_left sw') (retries_left sw) with
         | left smaller => query q params sw'
         | right _ => (Raise (OtherException "RecursionError"), sw')
         end)
      q params sw.
End Methods.
End GraphqlClientWss.

(** ** Vocabulary of the statements *)

(** The request of a token fetch of the instance [me]. *)
Definition token_request (me : AuthService.t) (login_credentials : string) (tmo : Z)
    : http_request :=
  {| url := AuthService.__endpoint me;
     json_payload := ∅;
     headers := {[ "Content-Type" := "application/json";
                   "authorization" := "Basic " +:+ login_credentials ]};
     timeout := tmo |}.

(** [200 <= response.status_code < 300] *)
Definition is_2xx (r : response) : bool :=
  (200 <=? status_code r) && (status_code r <? 300).

(** An answer with the status [code] and a body that is not JSON. *)
Definition status_response (code : Z) : result response :=
  Return {| status_code := code; body := None |}.

(** The answer of a token endpoint that grants the token [tok]. *)
Definition token_response (tok : string) : result response :=
  Return {| status_code := 200;
            body := Some (JsonDict {[ "access_token" := PyStr tok ]}) |}.

(** A fetch that fails the way the error branches of
    [_handle_access_token] expect: a status outside [200,300), a timeout, or
    another [RequestException] of the transport. *)
Definition fetch_fails (a : result response) : Prop :=
  match a with
  | Return r => is_2xx r = false
  | Raise e => is_RequestException e = true
  end.

(** The job that [_authenticate] hands to [add_job]. *)
Definition refresh_job (me : AuthService.t) : job :=
  {| seconds := AuthService.__refresh_interval me; max_instances := 1 |}.

(** The scheduler as [_authenticate] leaves it: started once, with the one
    refresh job. *)
Definition refresh_scheduler (me : AuthService.t) : scheduler :=
  {| running := true;
     starts := 1;
     jobs := [ {| seconds := AuthService.__refresh_interval me; max_instances := 1 |} ];
     shutdowns := 0 |}.

(** The scheduler as [_authenticate] leaves it when [add_job] raised:
    started, without a job. *)
Definition jobless_scheduler : scheduler :=
  {| running := true; starts := 1; jobs := []; shutdowns := 0 |}.

(** The calls a user of an instance, or its scheduler, makes over time. *)
Inductive call : Type :=
| Authenticate
| GetBearerToken
| GetAuthHeader
| Tick.

Definition perform (E : env) (c : call) : M (AuthService.t * world) unit :=
  match c with
  | Authenticate => AuthService._authenticate E
  | GetBearerToken => let* _ := AuthService.get_bearer_token E in ret tt
  | GetAuthHeader => let* _ := AuthService.get_auth_header E in ret tt
  | Tick => AuthService.tick E
  end.

(** A sequence of calls; a caller goes on after an exception. *)
Fixpoint perform_all (E : env) (cs : list call) (sw : AuthService.t * world)
    : AuthService.t * world :=
  match cs with
  | [] => sw
  | c :: cs' => perform_all E cs' (snd (perform E c sw))
  end.

(** What calls may do to the scheduler of an instance.  With a scheduler,
    nothing: the instance keeps it and no scheduler object is created or
    changed.  Without one, nothing, or else exactly one scheduler is
    created and started once, and the instance refers to it; it holds the
    one refresh job, or no job when [add_job] refuses that job.  The refresh
    interval is never reassigned. *)
Definition scheduler_step (E : env) (sw sw' : AuthService.t * world) : Prop :=
  AuthService.__refresh_interval (fst sw') = AuthService.__refresh_interval (fst sw) /\
  match AuthService.__auth_scheduler (fst sw) with
  | Some id =>
      AuthService.__auth_scheduler (fst sw') = Some id /\
      schedulers (snd sw') = schedulers (snd sw)
  | None =>
      (AuthService.__auth_scheduler (fst sw') = None /\
       schedulers (snd sw') = schedulers (snd sw)) \/
      (AuthService.__auth_scheduler (fst sw') = Some (length (schedulers (snd sw))) /\
       match add_job_fault E (refresh_job (fst sw)) with
       | None => schedulers (snd sw') = schedulers (snd sw) ++ [refresh_scheduler (fst sw)]
       | Some _ => schedulers (snd sw') = schedulers (snd sw) ++ [jobless_scheduler]
       end)
  end.

(** The record of [client.execute(q, params)] by the client [c]. *)
Definition sent (c : GraphqlClient.t) (q : string) (params : gmap string pyval) : execution :=
  {| exec_transport := GraphqlClient.client c;
     exec_query := q;
     exec_parameters := params |}.

(** ** Concrete inputs *)

(** A configuration as the examples load it with [yaml.safe_load]. *)
Definition example_config : gmap string (gmap string pyval) :=
  {[ "auth_service" :=
       {[ "endpoint" := PyStr "https://login.example/token";
          "user_email" := PyStr "a@b.c";
          "user_api_key_file" := PyStr "key.txt";
          "refresh_interval" := PyInt 300 ]};
     "api" :=
       {[ "production_deployment" := PyOther true "True";
          "prod_url" := PyStr "https://api.example/graphql";
          "dev_url" := PyStr "https://dev.example/graphql" ]} ]}.

(** An environment whose key file holds [" key "], with the given answers
    of the token endpoint and of the GraphQL endpoint. *)
Definition answering (token_endpoint : nat -> result response)
    (graphql_endpoint : nat -> result (gmap string pyval)) : env :=
  {| post_answer := token_endpoint;
     execute_answer := graphql_endpoint;
     get_docker_secret := fun _ => Return PyNone;
     read_file := fun _ => Return " key ";
     add_job_fault := fun _ => None;
     shutdown_fault := None;
     schema_fault := None |}.

(** [answering], with an [add_job] that refuses an interval given as text,
    as apscheduler does. *)
Definition refusing_text_interval (token_endpoint : nat -> result response) : env :=
  {| post_answer := token_endpoint;
     execute_answer := fun _ => Return ∅;
     get_docker_secret := fun _ => Return PyNone;
     read_file := fun _ => Return " key ";
     add_job_fault :=
       fun j =>
         match seconds j with
         | PyStr _ =>
             Some (TypeError "unsupported type for timedelta seconds component: str")
         | _ => None
         end;
     shutdown_fault := None;
     schema_fault := None |}.

(** [answering], with a key file that holds the key followed by a
    no-break space (U+00A0) and a line feed. *)
Definition key_file_with_nbsp (token_endpoint : nat -> result response) : env :=
  {| post_answer := token_endpoint;
     execute_answer := fun _ => Return ∅;
     get_docker_secret := fun _ => Return PyNone;
     read_file :=
       fun _ => Return ("key" +:+ String (ascii_of_N 194) (String (ascii_of_N 160)
                                     (String (ascii_of_N 10) "")));
     add_job_fault := fun _ => None;
     shutdown_fault := None;
     schema_fault := None |}.

(** The instance that [AuthService(example_config)] constructs. *)
Definition example_auth : AuthService.t :=
  {| AuthService.__access_token := PyNone;
     AuthService.__auth_scheduler := None;
     AuthService.__endpoint := PyStr "https://login.example/token";
     AuthService.__login_credentials := "YUBiLmM6a2V5";
     AuthService.__refresh_interval := PyInt 300;
     AuthService.__timeout := 5 |}.

(** [example_config] with a refresh interval of -5 seconds. *)
Definition negative_interval_config : gmap string (gmap string pyval) :=
  {[ "auth_service" :=
       {[ "endpoint" := PyStr "https://login.example/token";
          "user_email" := PyStr "a@b.c";
          "user_api_key_file" := PyStr "key.txt";
          "refresh_interval" := PyInt (-5) ]} ]}.

(** [example_config] with the refresh interval given as the text ["300"]. *)
Definition text_interval_config : gmap string (gmap string pyval) :=
  {[ "auth_service" :=
       {[ "endpoint" := PyStr "https://login.example/token";
          "user_email" := PyStr "a@b.c";
          "user_api_key_file" := PyStr "key.txt";
          "refresh_interval" := PyStr "300" ]} ]}.

(** The instance that [AuthService(text_interval_config)] constructs. *)
Definition text_interval_auth : AuthService.t :=
  {| AuthService.__access_token := PyNone;
     AuthService.__auth_scheduler := None;
     AuthService.__endpoint := PyStr "https://login.example/token";
     AuthService.__login_credentials := "YUBiLmM6a2V5";
     AuthService.__refresh_interval := PyStr "300";
     AuthService.__timeout := 5 |}.

(** A configuration without the section [auth_service]. *)
Definition no_section_config : gmap string (gmap string pyval) := ∅.

(** [example_config] without the key [endpoint]. *)
Definition no_endpoint_config : gmap string (gmap string pyval) :=
  {[ "auth_service" :=
       {[ "user_email" := PyStr "a@b.c";
          "user_api_key_file" := PyStr "key.txt";
          "refresh_interval" := PyInt 300 ]} ]}.

(** [example_config] with a [timeout] of 0 seconds, a key the constructor
    does not read. *)
Definition zero_timeout_config : gmap string (gmap string pyval) :=
  {[ "auth_service" :=
       {[ "endpoint" := PyStr "https://login.example/token";
          "user_email" := PyStr "a@b.c";
          "user_api_key_file" := PyStr "key.txt";
          "refresh_interval" := PyInt 300;
          "timeout" := PyInt 0 ]} ]}.

(** [example_config] without an endpoint. *)
Definition empty_endpoint_section : gmap string pyval :=
  {[ "endpoint" := PyStr "";
     "user_email" := PyStr "a@b.c";
     "user_api_key_file" := PyStr "key.txt";
     "refresh_interval" := PyInt 300 ]}.

Definition empty_endpoint_config : gmap string (gmap string pyval) :=
  {[ "auth_service" := empty_endpoint_section ]}.

(** [example_auth] once it has fetched the token ["old"] and started its
    scheduler, and the world it lives in. *)
Definition authenticated_auth : AuthService.t :=
  AuthService.set_access_token (PyStr "old")
    (AuthService.set_auth_scheduler (Some 0%nat) example_auth).

Definition authenticated_world : world :=
  {| posts := [token_request example_auth "YUBiLmM6a2V5" 5];
     schedulers := [refresh_scheduler example_auth];
     transports := [];
     executes := [] |}.

(** A token endpoint that answers 200 with the JSON object [{}]. *)
Definition empty_object_response : result response :=
  Return {| status_code := 200; body := Some (JsonDict ∅) |}.

(** A token endpoint that grants ["old"], then answers 401, then grants
    ["abc123"]. *)
Definition granted_denied_granted (n : nat) : result response :=
  match n with
  | 0%nat => token_response "old"
  | 1%nat => status_response 401
  | _ => token_response "abc123"
  end.

(** The settings that make the constructor refuse a configuration section:
    an endpoint, an email or a refresh interval that is empty, zero or
    [None]; no key file; a key file without a key in it. *)
Definition lacks_setting (E : env) (section : gmap string pyval) : Prop :=
  (exists v, section !! "endpoint" = Some v /\ truthy v = false) \/
  (exists v, section !! "user_email" = Some v /\ truthy v = false) \/
  section !! "user_api_key_file" = Some PyNone \/
  (exists file text, section !! "user_api_key_file" = Some file /\
     read_file E file = Return text /\ strip text = "") \/
  (exists v, section !! "refresh_interval" = Some v /\ truthy v = false).

(** The section has the three keys the constructor subscripts, and its key
    file, if there is one, can be looked up and read. *)
Definition readable (E : env) (section : gmap string pyval) : Prop :=
  is_Some (section !! "endpoint") /\
  is_Some (section !! "user_email") /\
  exists file, section !! "user_api_key_file" = Some file /\
    (file = PyNone \/
     ((exists secret, get_docker_secret E file = Return secret) /\
      (exists text, read_file E file = Return text))).


(** The response of the GraphQL endpoint to a query for a robot. *)
Definition robot_response : gmap string pyval :=
  {[ "robotByNumber" := PyOther true "{'name': 'spot-1'}" ]}.

(** A GraphQL endpoint that rejects the first request with a protocol
    error and answers the second. *)
Definition rejected_then_answered (n : nat) : result (gmap string pyval) :=
  match n with
  | 0%nat => Raise TransportProtocolError
  | _ => Return robot_response
  end.

(** A GraphQL endpoint that rejects every request with a protocol error. *)
Definition always_rejected (_ : nat) : result (gmap string pyval) :=
  Raise TransportProtocolError.

(** A configuration section that gives the key inline and names no key file. *)
Definition inline_key_section : gmap string pyval :=
  {[ "endpoint" := PyStr "https://login.example/token";
     "user_email" := PyStr "a@b.c";
     "user_api_key_file" := PyNone;
     "refresh_interval" := PyInt 300 ]}.

Definition inline_key_config : gmap string (gmap string pyval) :=
  {[ "auth_service" := inline_key_section ]}.

(** [example_config] without a refresh interval. *)
Definition default_interval_config : gmap string (gmap string pyval) :=
  {[ "auth_service" :=
       {[ "endpoint" := PyStr "https://login.example/token";
          "user_email" := PyStr "a@b.c";
          "user_api_key_file" := PyStr "key.txt" ]} ]}.

(** The instance that [AuthService(default_interval_config)] constructs is
    [example_auth]: 300 seconds is the default. *)

(** [example_config] for a development deployment. *)
Definition dev_config : gmap string (gmap string pyval) :=
  {[ "auth_service" :=
       {[ "endpoint" := PyStr "https://login.example/token";
          "user_email" := PyStr "a@b.c";
          "user_api_key_file" := PyStr "key.txt";
          "refresh_interval" := PyInt 300 ]};
     "api" :=
       {[ "production_deployment" := PyOther false "False";
          "prod_url" := PyStr "https://api.example/graphql";
          "dev_url" := PyStr "https://dev.example/graphql" ]} ]}.

(** [example_config] for a production deployment that names no [dev_url]. *)
Definition production_only_config : gmap string (gmap string pyval) :=
  {[ "auth_service" :=
       {[ "endpoint" := PyStr "https://login.example/token";
          "user_email" := PyStr "a@b.c";
          "user_api_key_file" := PyStr "key.txt";
          "refresh_interval" := PyInt 300 ]};
     "api" :=
       {[ "production_deployment" := PyOther true "True";
          "prod_url" := PyStr "https://api.example/graphql" ]} ]}.

(** [example_config] without the [api] section. *)
Definition no_api_config : gmap string (gmap string pyval) :=
  {[ "auth_service" :=
       {[ "endpoint" := PyStr "https://login.example/token";
          "user_email" := PyStr "a@b.c";
          "user_api_key_file" := PyStr "key.txt";
          "refresh_interval" := PyInt 300 ]} ]}.

(** The record of [client.execute(q, params)] by the websocket client [c]. *)
Definition wss_sent (c : GraphqlClientWss.t) (q : string) (params : gmap string pyval)
    : execution :=
  {| exec_transport := GraphqlClientWss.client c;
     exec_query := q;
     exec_parameters := params |}.

(** The store after a send of the websocket client [c]. *)
Definition wss_after_send (c : GraphqlClientWss.t) (q : string)
    (params : gmap string pyval) (cw : GraphqlClientWss.store) : GraphqlClientWss.store :=
  (fst cw, set_executes (fun l => l ++ [wss_sent c q params]) (snd cw)).

(** * Properties *)

(** Unfolding of the combinators of [M]. *)
Ltac run_monad :=
  unfold try_except, try_finally, bind, ret, raise, get, modify, on_snd, lift_result,
    AuthService.assign, AuthService.self, GraphqlClient.assign, GraphqlClient.self,
    GraphqlClient.on_auth_service in *;
  cbn [handle fst snd] in *.

(** A construction that raised [ValueError], in the proof about the
    constructor's validation. *)
Ltac value_error := eexists; split; [reflexivity | intros _; eexists; reflexivity].

(** The methods are unfolded by name, one at a time. *)
Arguments AuthService._handle_access_token : simpl never.
Arguments AuthService._authenticate : simpl never.
Arguments AuthService.get_bearer_token : simpl never.
Arguments AuthService.get_auth_header : simpl never.
Arguments GraphqlClient._initialize_client : simpl never.
Arguments GraphqlClient.query_body : simpl never.
Arguments GraphqlClientWss._initialize_client : simpl never.
Arguments GraphqlClientWss.query_body : simpl never.

(** ** Strings *)

Example b64encode_Man : b64encode "Man" = "TWFu".
Proof. reflexivity. Qed.

Example b64encode_pad1 : b64encode "Ma" = "TWE=".
Proof. reflexivity. Qed.

Example b64encode_pad2 : b64encode "M" = "TQ==".
Proof. reflexivity. Qed.

Example b64encode_credentials : b64encode "a@b.c:key" = "YUBiLmM6a2V5".
Proof. reflexivity. Qed.

Example strip_key_file : strip (" s3cret" +:+ String "010"%char "") = "s3cret".
Proof. reflexivity. Qed.

(** A leading EM SPACE (U+2003) and a trailing NO-BREAK SPACE (U+00A0)
    are stripped; the two bytes of a letter outside ASCII are kept. *)
Example strip_unicode_white_space :
  strip (String (ascii_of_N 226) (String (ascii_of_N 128) (String (ascii_of_N 131) "key"))
         +:+ String (ascii_of_N 194) (String (ascii_of_N 160) (String (ascii_of_N 10) "")))
  = "key" /\
  strip (String (ascii_of_N 195) (String (ascii_of_N 169) " "))
  = String (ascii_of_N 195) (String (ascii_of_N 169) "").
Proof. split; reflexivity. Qed.

Example py_str_int : py_str (PyInt (-5)) = "-5" /\ py_str (PyInt 300) = "300".
Proof. split; reflexivity. Qed.


(** ** The token fetch *)

Section AuthServiceFacts.
Context (E : env).
Import AuthService.

Lemma _handle_access_token_eq login_credentials tmo me w :
  _handle_access_token E login_credentials tmo (me, w) =
  let w' := set_posts (fun l => l ++ [token_request me login_credentials tmo]) w in
  match post_answer E (length (posts w)) with
  | Return r =>
      if is_2xx r then
        match body r with
        | Some (JsonDict d) =>
            match d !! "access_token" with
            | Some token => (Return tt, (set_access_token token me, w'))
            | None => (Raise (KeyError "access_token"), (me, w'))
            end
        | Some JsonOther => (Raise (TypeError "indices must be integers"), (me, w'))
        | None => (Return tt, (set_access_token PyNone me, w'))
        end
      else (Return tt, (set_access_token PyNone me, w'))
  | Raise e =>
      if is_RequestException e then (Return tt, (set_access_token PyNone me, w'))
      else (Raise e, (me, w'))
  end.
Proof.
  unfold _handle_access_token, requests_post, is_2xx, response_json, json_getitem, getitem.
  run_monad.
  destruct (post_answer E (length (posts w))) as [r|e]; cbn.
  - destruct ((200 <=? status_code r) && (status_code r <? 300)); cbn; [|reflexivity].
    destruct (body r) as [[d|]|]; cbn; try reflexivity.
    destruct (d !! "access_token"); reflexivity.
  - destruct e; reflexivity.
Qed.

(** Appending an object to the store and then updating it in place. *)
Lemma lookup_new {A} (l : list A) (x : A) : (l ++ [x]) !! length l = Some x.
Proof. apply list_lookup_middle. reflexivity. Qed.

Lemma insert_new {A} (l : list A) (x y : A) : <[length l := y]> (l ++ [x]) = l ++ [y].
Proof.
  replace (length l) with (length l + 0)%nat at 1 by lia.
  rewrite insert_app_r. reflexivity.
Qed.

(** [_authenticate], flattened: the fetch, and on an instance without a
    scheduler the new scheduler, assigned and started before [add_job]
    accepts or refuses the refresh job. *)
Lemma _authenticate_eq me w :
  _authenticate E (me, w) =
  match _handle_access_token E (__login_credentials me) (__timeout me) (me, w) with
  | (Return _, (me1, w1)) =>
      match __auth_scheduler me1 with
      | None =>
          match add_job_fault E (refresh_job me1) with
          | None =>
              (Return tt,
               (set_auth_scheduler (Some (length (schedulers w1))) me1,
                set_schedulers (fun l => l ++ [refresh_scheduler me1]) w1))
          | Some e =>
              (Raise e,
               (set_auth_scheduler (Some (length (schedulers w1))) me1,
                set_schedulers (fun l => l ++ [jobless_scheduler]) w1))
          end
      | Some _ => (Return tt, (me1, w1))
      end
  | (Raise e, sw1) => (Raise e, sw1)
  end.
Proof.
  unfold _authenticate. run_monad.
  destruct (_handle_access_token E _ _ (me, w)) as [[[]|e] [me1 w1]]; [|reflexivity].
  cbn. destruct (__auth_scheduler me1) eqn:Hs; [reflexivity|].
  unfold BackgroundScheduler, start, add_job, on_scheduler, refresh_job. run_monad. cbn.
  rewrite lookup_new. cbn.
  rewrite (insert_new (schedulers w1)), lookup_new.
  unfold set_schedulers. cbn.
  destruct (add_job_fault E _) as [e|]; cbn;
    rewrite !(insert_new (schedulers w1)); reflexivity.
Qed.

Lemma get_bearer_token_eq me w :
  get_bearer_token E (me, w) =
  if negb (truthy (__access_token me)) || bool_decide (__auth_scheduler me = None) then
    match _authenticate E (me, w) with
    | (Return _, (me1, w1)) =>
        (if negb (truthy (__access_token me1)) then Return None
         else Return (Some ("Bearer " +:+ py_str (__access_token me1))),
         (me1, w1))
    | (Raise e, sw1) => (Raise e, sw1)
    end
  else (Return (Some ("Bearer " +:+ py_str (__access_token me))), (me, w)).
Proof.
  unfold get_bearer_token. run_monad.
  destruct (truthy (__access_token me)) eqn:Ht; cbn.
  - destruct (bool_decide (__auth_scheduler me = None)); cbn.
    + destruct (_authenticate E (me, w)) as [[[]|e] [me1 w1]]; [|reflexivity].
      cbn. destruct (truthy (__access_token me1)); reflexivity.
    + rewrite Ht. reflexivity.
  - destruct (_authenticate E (me, w)) as [[[]|e] [me1 w1]]; [|reflexivity].
    cbn. destruct (truthy (__access_token me1)); reflexivity.
Qed.

(** A bearer string is never empty, so [not bearer] only holds for [None]. *)
Lemma get_auth_header_eq me w :
  get_auth_header E (me, w) =
  match get_bearer_token E (me, w) with
  | (Return (Some b), sw1) => (Return (Some {[ "authorization" := b ]}), sw1)
  | (Return None, sw1) => (Return None, sw1)
  | (Raise e, sw1) => (Raise e, sw1)
  end.
Proof.
  unfold get_auth_header. run_monad. rewrite get_bearer_token_eq.
  destruct (negb (truthy (__access_token me)) || bool_decide (__auth_scheduler me = None)).
  - destruct (_authenticate E (me, w)) as [[[]|e] [me1 w1]]; [|reflexivity].
    destruct (truthy (__access_token me1)); reflexivity.
  - reflexivity.
Qed.

(** What a fetch may change: the token of the instance and the log of
    POSTs, which grows by the one request. *)
Lemma _handle_access_token_frame login_credentials tmo me w :
  let '(_, (me1, w1)) := _handle_access_token E login_credentials tmo (me, w) in
  w1 = set_posts (fun l => l ++ [token_request me login_credentials tmo]) w /\
  set_access_token PyNone me1 = set_access_token PyNone me.
Proof.
  rewrite _handle_access_token_eq. cbn zeta.
  destruct (post_answer E (length (posts w))) as [r|e].
  - destruct (is_2xx r); [|split; reflexivity].
    destruct (body r) as [[d|]|]; try (split; reflexivity).
    destruct (d !! "access_token"); split; reflexivity.
  - destruct (is_RequestException e); split; reflexivity.
Qed.

Lemma _handle_access_token_posts login_credentials tmo me w :
  posts (snd (snd (_handle_access_token E login_credentials tmo (me, w)))) =
  posts w ++ [token_request me login_credentials tmo].
Proof.
  pose proof (_handle_access_token_frame login_credentials tmo me w) as H.
  destruct (_handle_access_token E _ _ (me, w)) as [r [me1 w1]].
  destruct H as [-> _]. reflexivity.
Qed.

Lemma _authenticate_posts me w :
  posts (snd (snd (_authenticate E (me, w)))) =
  posts w ++ [token_request me (__login_credentials me) (__timeout me)].
Proof.
  rewrite _authenticate_eq.
  pose proof (_handle_access_token_posts (__login_credentials me) (__timeout me) me w) as H.
  destruct (_handle_access_token E _ _ (me, w)) as [[[]|e] [me1 w1]]; [|exact H].
  destruct (__auth_scheduler me1); [exact H|].
  destruct (add_job_fault E _); exact H.
Qed.
End AuthServiceFacts.

(** ** The first request for a token *)

(** A cached token of an instance with a scheduler is served as it is,
    without a fetch. *)
Lemma get_bearer_token_cached (E : env) (me : AuthService.t) (w : world) (id : nat) :
  truthy (AuthService.__access_token me) = true ->
  AuthService.__auth_scheduler me = Some id ->
  AuthService.get_bearer_token E (me, w) =
  (Return (Some ("Bearer " +:+ py_str (AuthService.__access_token me))), (me, w)).
Proof.
  intros Ht Hs. rewrite get_bearer_token_eq, Ht, Hs. reflexivity.
Qed.

(** C6. On an instance that has no cached token and no scheduler,
    [get_bearer_token] performs exactly one token fetch before it returns
    (or raises): the log of POSTs grows by exactly the one token request of
    the instance. *)
Theorem get_bearer_token_first_call_fetches_once (E : env) (me : AuthService.t) (w : world) :
  AuthService.__access_token me = PyNone ->
  AuthService.__auth_scheduler me = None ->
  posts (snd (snd (AuthService.get_bearer_token E (me, w)))) =
  posts w ++ [token_request me (AuthService.__login_credentials me) (AuthService.__timeout me)].
Proof.
  intros Htok Hsch. rewrite get_bearer_token_eq, Htok. cbn [truthy negb orb].
  pose proof (_authenticate_posts E me w) as H.
  destruct (AuthService._authenticate E (me, w)) as [[[]|e] [me1 w1]]; exact H.
Qed.

Lemma get_bearer_token_first_call_fetches_once_witness :
  posts (snd (snd (AuthService.get_bearer_token
                     (answering (fun _ => token_response "abc123") (fun _ => Return ∅))
                     (example_auth, empty_world)))) =
  [] ++ [token_request example_auth "YUBiLmM6a2V5" 5].
Proof.
  apply (get_bearer_token_first_call_fetches_once
           (answering (fun _ => token_response "abc123") (fun _ => Return ∅))
           example_auth empty_world); reflexivity.
Defined.

(** ** Construction *)

Section Construction.
Context (E : env).
Import AuthService.

(** The constructor does not touch the outside. *)
Lemma __init___world config w : snd (__init__ E config w) = w.
Proof.
  unfold __init__, __init___settings, __init___attributes.
  destruct (config !! "auth_service") as [section|]; [|reflexivity].
  unfold getitem. run_monad.
  destruct (section !! "endpoint") as [endpoint|]; [|reflexivity].
  destruct (section !! "user_email") as [email|]; [|reflexivity].
  destruct (section !! "user_api_key_file") as [file|]; [|reflexivity].
  destruct (section !! "user_api_key") as [key|]; cbn;
    (destruct (is_None file); cbn;
     [|destruct (get_docker_secret E file); [|reflexivity];
       destruct (read_file E file); [|reflexivity]];
     destruct (section !! "refresh_interval") as [interval|]; cbn;
     repeat match goal with |- context [if ?b then _ else _] => destruct b end;
     reflexivity).
Qed.

(** What a successful construction has read, and the instance it built. *)
Lemma __init___returns config w me w' :
  __init__ E config w = (Return me, w') ->
  exists section endpoint email file text,
    config !! "auth_service" = Some section /\
    section !! "endpoint" = Some endpoint /\ truthy endpoint = true /\
    section !! "user_email" = Some email /\ truthy email = true /\
    section !! "user_api_key_file" = Some file /\ is_None file = false /\
    read_file E file = Return text /\ strip text <> "" /\
    truthy (default (PyInt 300) (section !! "refresh_interval")) = true /\
    me = {| __access_token := PyNone;
            __auth_scheduler := None;
            __endpoint := endpoint;
            __login_credentials := b64encode (py_str email +:+ ":" +:+ strip text);
            __refresh_interval := default (PyInt 300) (section !! "refresh_interval");
            __timeout := 5 |}.
Proof.
  unfold __init__, __init___settings, __init___attributes.
  destruct (config !! "auth_service") as [section|] eqn:Hsec; [|discriminate].
  unfold getitem. run_monad.
  destruct (section !! "endpoint") as [endpoint|] eqn:Hend; [|discriminate].
  destruct (section !! "user_email") as [email|] eqn:Hmail; [|discriminate].
  destruct (section !! "user_api_key_file") as [file|] eqn:Hfl; [|discriminate].
  intros H. exists section, endpoint, email, file.
  assert (Hfile : is_None file = false /\ exists text, read_file E file = Return text /\
            strip text <> "" /\
            truthy endpoint = true /\ truthy email = true /\
            truthy (default (PyInt 300) (section !! "refresh_interval")) = true /\
            me = {| __access_token := PyNone; __auth_scheduler := None;
                    __endpoint := endpoint;
                    __login_credentials := b64encode (py_str email +:+ ":" +:+ strip text);
                    __refresh_interval := default (PyInt 300) (section !! "refresh_interval");
                    __timeout := 5 |}).
  { destruct (section !! "user_api_key") as [key|]; cbn in H;
      (destruct (is_None file); cbn in H;
       [ destruct (section !! "refresh_interval"); cbn in H;
         destruct (truthy endpoint), (truthy email); cbn in H; discriminate
       | destruct (get_docker_secret E file); [|discriminate];
         destruct (read_file E file) as [text|]; [|discriminate];
         split; [reflexivity|]; exists text; split; [reflexivity|];
         destruct (section !! "refresh_interval") as [interval|]; cbn in H |- *;
         destruct (truthy endpoint), (truthy email); cbn in H; try discriminate;
         destruct (String.eqb_spec (strip text) ""); cbn in H; try discriminate;
         try match type of H with
             | context [truthy ?v] => destruct (truthy v) eqn:Hv; cbn in H; try discriminate
             end;
         inversion H; subst; repeat split; auto ]). }
  destruct Hfile as (Hnone & text & Hread & Hkey & He & Hm & Hi & ->).
  exists text. repeat split; auto.
Qed.
End Construction.

(** C7. Every token fetch of a constructed instance, whatever token and
    scheduler it holds by then and whatever the endpoint answers, issues
    exactly one POST: to the configured endpoint, with the headers
    [Content-Type: application/json] and
    [authorization: Basic base64(email:key)], the empty JSON object as body,
    and the timeout of the instance (which the constructor sets to 5
    seconds).  [_authenticate], which wraps the fetch, adds no other POST. *)
Theorem token_fetch_is_one_post (E : env) (config : gmap string (gmap string pyval))
    (w0 w0' : world) (me0 : AuthService.t) (token : pyval) (sched : option nat) (w : world) :
  AuthService.__init__ E config w0 = (Return me0, w0') ->
  let me := AuthService.set_access_token token (AuthService.set_auth_scheduler sched me0) in
  exists section endpoint email file text,
    config !! "auth_service" = Some section /\
    section !! "endpoint" = Some endpoint /\
    section !! "user_email" = Some email /\
    section !! "user_api_key_file" = Some file /\
    read_file E file = Return text /\
    let request :=
      {| url := endpoint;
         json_payload := ∅;
         headers := {[ "Content-Type" := "application/json";
                       "authorization" :=
                         "Basic " +:+ b64encode (py_str email +:+ ":" +:+ strip text) ]};
         timeout := 5 |} in
    posts (snd (snd (AuthService._handle_access_token E
                       (AuthService.__login_credentials me) (AuthService.__timeout me)
                       (me, w)))) = posts w ++ [request] /\
    posts (snd (snd (AuthService._authenticate E (me, w)))) = posts w ++ [request].
Proof.
  intros Hinit me.
  destruct (__init___returns E config w0 me0 w0' Hinit)
    as (section & endpoint & email & file & text & Hsec & Hend & _ & Hmail & _ & Hfile & _
        & Hread & _ & _ & Hme).
  exists section, endpoint, email, file, text.
  repeat (split; [assumption|]).
  cbn zeta. rewrite _handle_access_token_posts, _authenticate_posts.
  subst me me0. split; reflexivity.
Qed.

Lemma token_fetch_is_one_post_witness :
  exists section endpoint email file text,
    example_config !! "auth_service" = Some section /\
    section !! "endpoint" = Some endpoint /\
    section !! "user_email" = Some email /\
    section !! "user_api_key_file" = Some file /\
    read_file (answering (fun _ => status_response 503) (fun _ => Return ∅)) file
      = Return text /\
    let request :=
      {| url := endpoint;
         json_payload := ∅;
         headers := {[ "Content-Type" := "application/json";
                       "authorization" :=
                         "Basic " +:+ b64encode (py_str email +:+ ":" +:+ strip text) ]};
         timeout := 5 |} in
    posts (snd (snd (AuthService._handle_access_token
                       (answering (fun _ => status_response 503) (fun _ => Return ∅))
                       "YUBiLmM6a2V5" 5
                       (AuthService.set_access_token (PyStr "old")
                          (AuthService.set_auth_scheduler (Some 0%nat) example_auth),
                        empty_world)))) = [] ++ [request] /\
    posts (snd (snd (AuthService._authenticate
                       (answering (fun _ => status_response 503) (fun _ => Return ∅))
                       (AuthService.set_access_token (PyStr "old")
                          (AuthService.set_auth_scheduler (Some 0%nat) example_auth),
                        empty_world)))) = [] ++ [request].
Proof.
  apply (token_fetch_is_one_post
           (answering (fun _ => status_response 503) (fun _ => Return ∅))
           example_config empty_world empty_world example_auth
           (PyStr "old") (Some 0%nat) empty_world).
  vm_compute. reflexivity.
Defined.

Example example_auth_constructed :
  AuthService.__init__ (answering (fun _ => status_response 503) (fun _ => Return ∅))
    example_config empty_world = (Return example_auth, empty_world).
Proof. vm_compute. reflexivity. Qed.

(** A key file that ends in a no-break space and a line feed gives the same
    credentials: both are stripped. *)
Example nbsp_key_file_credentials :
  AuthService.__init__ (key_file_with_nbsp (fun _ => status_response 503))
    example_config empty_world = (Return example_auth, empty_world) /\
  AuthService.__login_credentials example_auth = b64encode "a@b.c:key".
Proof. split; vm_compute; reflexivity. Qed.

(** C5, counterexample. A configuration whose refresh interval is -5
    seconds, and one that asks for a [timeout] of 0, do not make the
    construction fail: both return an instance, the first with the interval
    -5 and the second with the timeout 5. *)
Lemma negative_interval_is_accepted :
  let E := answering (fun _ => status_response 503) (fun _ => Return ∅) in
  (forall e, fst (AuthService.__init__ E negative_interval_config empty_world) <> Raise e) /\
  (forall e, fst (AuthService.__init__ E zero_timeout_config empty_world) <> Raise e) /\
  (exists me, AuthService.__init__ E negative_interval_config empty_world = (Return me, empty_world)
              /\ AuthService.__refresh_interval me = PyInt (-5)) /\
  (exists me, AuthService.__init__ E zero_timeout_config empty_world = (Return me, empty_world)
              /\ AuthService.__timeout me = 5).
Proof.
  cbn zeta. split; [|split; [|split]].
  - intros e. vm_compute. discriminate.
  - intros e. vm_compute. discriminate.
  - eexists. split; vm_compute; reflexivity.
  - eexists. split; vm_compute; reflexivity.
Qed.

(** C5 (amended). When the configuration section lacks a setting (endpoint,
    user email or refresh interval empty, zero or [None]; no key file; an
    empty key in the key file), constructing the AuthService fails, with a
    [ValueError] when the section is otherwise readable, and the
    constructor leaves the outside untouched: no POST is issued. *)
Theorem construction_validates (E : env) (config : gmap string (gmap string pyval))
    (w : world) (section : gmap string pyval) :
  config !! "auth_service" = Some section ->
  lacks_setting E section ->
  (exists e, fst (AuthService.__init__ E config w) = Raise e /\
             (readable E section -> exists msg, e = ValueError msg)) /\
  snd (AuthService.__init__ E config w) = w /\
  posts (snd (AuthService.__init__ E config w)) = posts w.
Proof.
  intros Hsec Hlack. rewrite __init___world. split; [|split; reflexivity].
  unfold AuthService.__init__, AuthService.__init___settings,
    AuthService.__init___attributes. rewrite Hsec. unfold getitem. run_monad.
  unfold readable.
  destruct (section !! "endpoint") as [endpoint|] eqn:Hend; cbn;
    [|eexists; split; [reflexivity|]; intros ([? ?] & _); congruence].
  destruct (section !! "user_email") as [email|] eqn:Hmail; cbn;
    [|eexists; split; [reflexivity|]; intros (_ & [? ?] & _); congruence].
  destruct (section !! "user_api_key_file") as [file|] eqn:Hfile; cbn;
    [|eexists; split; [reflexivity|]; intros (_ & _ & ? & ? & _); congruence].
  destruct (section !! "user_api_key") as [key|]; cbn;
    (destruct (is_None file) eqn:Hnone; cbn;
     [ destruct (section !! "refresh_interval") as [interval|]; cbn;
       destruct (truthy endpoint), (truthy email); cbn; value_error |]);
    (destruct (get_docker_secret E file) as [secret|e] eqn:Hsecret; cbn;
     [| eexists; split; [reflexivity|];
        intros (_ & _ & f & [= <-] & [-> | [[? ?] _]]); cbn in *; congruence ]);
    (destruct (read_file E file) as [text|e] eqn:Hread; cbn;
     [| eexists; split; [reflexivity|];
        intros (_ & _ & f & [= <-] & [-> | [_ [? ?]]]); cbn in *; congruence ]);
    (destruct (section !! "refresh_interval") as [interval|] eqn:Hint; cbn);
    (destruct (truthy endpoint) eqn:Te; cbn; [| value_error ]);
    (destruct (truthy email) eqn:Tm; cbn; [| value_error ]);
    (destruct (String.eqb_spec (strip text) "") as [Hempty|Hfull]; cbn; [ value_error |]);
    try (destruct (truthy interval) eqn:Ti; cbn; [| value_error ]);
    exfalso;
    destruct Hlack as [(v & Hv & Hf) | [(v & Hv & Hf) | [Hv | [(f & t & Hv & Hr & Hs)
                      | (v & Hv & Hf)]]]];
    repeat match goal with
           | H1 : ?x = Some _, H2 : ?x = Some _ |- _ => rewrite H1 in H2; injection H2 as ?
           end;
    subst; cbn in *; congruence.
Qed.

Lemma construction_validates_witness :
  let E := answering (fun _ => status_response 503) (fun _ => Return ∅) in
  (exists e, fst (AuthService.__init__ E empty_endpoint_config empty_world) = Raise e /\
             (readable E empty_endpoint_section -> exists msg, e = ValueError msg)) /\
  snd (AuthService.__init__ E empty_endpoint_config empty_world) = empty_world /\
  posts (snd (AuthService.__init__ E empty_endpoint_config empty_world)) = posts empty_world.
Proof.
  apply (construction_validates
           (answering (fun _ => status_response 503) (fun _ => Return ∅))
           empty_endpoint_config empty_world empty_endpoint_section).
  - vm_compute. reflexivity.
  - left. exists (PyStr ""). split; vm_compute; reflexivity.
Defined.

(** ** The token cache *)

Section TokenCache.
Context (E : env).
Import AuthService.

(** A fetch that fails as [fetch_fails] says clears the token, whatever
    was cached, and returns normally. *)
Lemma failed_fetch_clears login_credentials tmo me w :
  fetch_fails (post_answer E (length (posts w))) ->
  _handle_access_token E login_credentials tmo (me, w) =
  (Return tt,
   (set_access_token PyNone me,
    set_posts (fun l => l ++ [token_request me login_credentials tmo]) w)).
Proof.
  intros H. rewrite _handle_access_token_eq. cbn zeta.
  destruct (post_answer E (length (posts w))) as [r|e]; cbn in H; rewrite H; reflexivity.
Qed.

(** A body that is not JSON is such a failure too: [response.json()]
    raises a [RequestException]. *)
Lemma malformed_json_clears login_credentials tmo me w r :
  post_answer E (length (posts w)) = Return r -> body r = None ->
  _handle_access_token E login_credentials tmo (me, w) =
  (Return tt,
   (set_access_token PyNone me,
    set_posts (fun l => l ++ [token_request me login_credentials tmo]) w)).
Proof.
  intros Hr Hb. rewrite _handle_access_token_eq, Hr. cbn zeta. rewrite Hb.
  destruct (is_2xx r); reflexivity.
Qed.


(** A 2xx answer whose JSON object has no [access_token] raises
    [KeyError] out of the fetch and leaves the token as it was. *)
Lemma missing_access_token_raises login_credentials tmo me w r d :
  post_answer E (length (posts w)) = Return r -> is_2xx r = true ->
  body r = Some (JsonDict d) -> d !! "access_token" = None ->
  _handle_access_token E login_credentials tmo (me, w) =
  (Raise (KeyError "access_token"),
   (me, set_posts (fun l => l ++ [token_request me login_credentials tmo]) w)).
Proof.
  intros Hr H2 Hb Hd. rewrite _handle_access_token_eq, Hr. cbn zeta.
  rewrite H2, Hb, Hd. reflexivity.
Qed.
End TokenCache.


(** A cached token is served as it is; a cleared one is fetched again. *)
Example get_auth_header_cached_and_refetched :
  let E := answering granted_denied_granted (fun _ => Return ∅) in
  AuthService.get_auth_header E (authenticated_auth, authenticated_world)
    = (Return (Some {[ "authorization" := "Bearer old" ]}),
       (authenticated_auth, authenticated_world)) /\
  fst (AuthService.get_auth_header E
         (AuthService.set_access_token PyNone authenticated_auth, authenticated_world))
    = Return None /\
  fst (AuthService.get_auth_header E (example_auth, empty_world))
    = Return (Some {[ "authorization" := "Bearer old" ]}).
Proof. vm_compute. repeat split; reflexivity. Qed.



(** ** Disposal *)

Section DisposalFacts.
Context (E : env).
Import AuthService.

(** On an object that has its [__auth_scheduler], [__del__] never raises.
    Without a scheduler it does nothing; with one it calls [shutdown] on it
    once, and whatever that call raises (the scheduler is already stopped,
    or the shutdown fails) is swallowed. *)
Lemma __del___once_assigned (o : object) (w : world) :
  o <> Blank ->
  fst (__del__ E (o, w)) = Return tt /\
  fst (snd (__del__ E (o, w))) = o /\
  (auth_scheduler_of o = Return None -> snd (snd (__del__ E (o, w))) = w) /\
  (forall id sch,
     auth_scheduler_of o = Return (Some id) -> schedulers w !! id = Some sch ->
     exists sch',
       schedulers (snd (snd (__del__ E (o, w)))) !! id = Some sch' /\
       shutdowns sch' = S (shutdowns sch) /\
       (running sch = true -> shutdown_fault E = None -> running sch' = false)).
Proof.
  intros Ho. unfold __del__, shutdown, on_scheduler. run_monad.
  destruct o as [| |me]; [contradiction| |]; cbn.
  - split; [reflexivity|]. split; [reflexivity|]. split; [reflexivity|].
    intros id sch [=].
  - destruct (__auth_scheduler me) as [id|] eqn:Hs; cbn.
    + destruct (schedulers w !! id) as [sch|] eqn:Hl; cbn.
      * assert (Hlt : (id < length (schedulers w))%nat) by (eapply lookup_lt_Some; eauto).
        destruct (running sch) eqn:Hr; cbn;
          [destruct (shutdown_fault E) as [[e still]|] eqn:Hf; cbn|];
          (split; [reflexivity|]; split; [reflexivity|]; split; [discriminate|]);
          intros id' sch0 [= <-] Hsch0; rewrite Hl in Hsch0; injection Hsch0 as <-;
          (eexists; split; [apply list_lookup_insert_eq; exact Hlt|]);
          cbn; split; try reflexivity; intros; congruence.
      * split; [reflexivity|]. split; [reflexivity|]. split; [discriminate|].
        intros id' sch0 [= <-] Hsch0. rewrite Hl in Hsch0. discriminate.
    + split; [reflexivity|]. split; [reflexivity|]. split; [reflexivity|].
      intros id sch [=].
Qed.

(** When [__init__] raises while it reads the settings, the object it
    leaves has no [__auth_scheduler], and [__del__] raises. *)
Lemma __del___after_failed_settings config w w' e :
  fst (__init___settings E config w) = Raise e ->
  constructed E config w = Blank /\
  __del__ E (constructed E config w, w')
  = (Raise (OtherException "AttributeError"), (Blank, w')).
Proof.
  intros H. unfold constructed.
  destruct (__init___settings E config w) as [[settings|e0] w0]; [discriminate|].
  split; reflexivity.
Qed.
End DisposalFacts.

(** C9, at a failing input: [AuthService({})], the constructor called with
    a configuration that has no section [auth_service].  [__init__] raises
    [ValueError] at line 25, before line 49 has assigned
    [__auth_scheduler]; [__del__] on the object this call leaves raises
    [AttributeError] at line 93, outside its [try].  The same happens when
    the section lacks the key [endpoint] (line 27).  After a [ValueError] of
    the checks of lines 51-58 the attribute is there, and [__del__]
    returns. *)
Theorem disposal_raises_after_failed_construction :
  let E := answering (fun _ => token_response "abc123") (fun _ => Return ∅) in
  AuthService.__init__ E no_section_config empty_world
    = (Raise (ValueError "Config must contain auth_service parameters."), empty_world) /\
  AuthService.constructed E no_section_config empty_world = AuthService.Blank /\
  AuthService.__del__ E
    (AuthService.constructed E no_section_config empty_world, empty_world)
    = (Raise (OtherException "AttributeError"), (AuthService.Blank, empty_world)) /\
  fst (AuthService.__init__ E no_endpoint_config empty_world) = Raise (KeyError "endpoint") /\
  fst (AuthService.__del__ E
         (AuthService.constructed E no_endpoint_config empty_world, empty_world))
    = Raise (OtherException "AttributeError") /\
  fst (AuthService.__init__ E empty_endpoint_config empty_world)
    = Raise (ValueError "Auth service endpoint must be provided.") /\
  AuthService.constructed E empty_endpoint_config empty_world = AuthService.Reset /\
  AuthService.__del__ E
    (AuthService.constructed E empty_endpoint_config empty_world, empty_world)
    = (Return tt, (AuthService.Reset, empty_world)).
Proof.
  vm_compute. repeat split; reflexivity.
Qed.

Example dispose_constructed_instance :
  let E := answering (fun _ => token_response "abc123") (fun _ => Return ∅) in
  AuthService.constructed E example_config empty_world = AuthService.Instance example_auth /\
  AuthService.__del__ E (AuthService.Instance example_auth, empty_world)
    = (Return tt, (AuthService.Instance example_auth, empty_world)) /\
  fst (AuthService.__del__ E (AuthService.Instance authenticated_auth, authenticated_world))
    = Return tt.
Proof. vm_compute. repeat split; reflexivity. Qed.

(** ** A token endpoint that answers without a token *)

(** C3, at a failing input: the token endpoint answers 200 with the JSON
    object [{}].  [get_bearer_token] (and [get_auth_header]) on a new
    instance then raise [KeyError] instead of returning [None]; and a
    refresh of an instance that holds the token ["old"] raises the same
    error and leaves ["old"] cached, so that the stale token is served
    afterwards. *)
Theorem missing_access_token_propagates :
  let E := answering (fun _ => empty_object_response) (fun _ => Return ∅) in
  fst (AuthService.get_bearer_token E (example_auth, empty_world))
    = Raise (KeyError "access_token") /\
  fst (AuthService.get_auth_header E (example_auth, empty_world))
    = Raise (KeyError "access_token") /\
  (let refreshed :=
     AuthService._handle_access_token E "YUBiLmM6a2V5" 5
       (authenticated_auth, authenticated_world) in
   fst refreshed = Raise (KeyError "access_token") /\
   AuthService.__access_token (fst (snd refreshed)) = PyStr "old" /\
   fst (AuthService.get_bearer_token E (snd refreshed)) = Return (Some "Bearer old")) /\
  (let ticked := AuthService.tick E (authenticated_auth, authenticated_world) in
   AuthService.__access_token (fst (snd ticked)) = PyStr "old").
Proof.
  vm_compute. repeat split; reflexivity.
Qed.

(** ** The refresh scheduler *)

Section Scheduler.
Context (E : env).
Import AuthService.

Lemma scheduler_step_refl sw : scheduler_step E sw sw.
Proof.
  split; [reflexivity|]. destruct (__auth_scheduler (fst sw)); auto.
Qed.

Lemma scheduler_step_trans sw1 sw2 sw3 :
  scheduler_step E sw1 sw2 -> scheduler_step E sw2 sw3 -> scheduler_step E sw1 sw3.
Proof.
  unfold scheduler_step, refresh_scheduler, refresh_job.
  intros [Hi1 H1] [Hi2 H2]. split; [congruence|].
  destruct (__auth_scheduler (fst sw1)) as [id|].
  - destruct H1 as [Hs1 Hw1]. rewrite Hs1 in H2. destruct H2 as [Hs2 Hw2].
    split; congruence.
  - destruct H1 as [[Hs1 Hw1] | [Hs1 Hw1]]; rewrite Hs1 in H2.
    + rewrite Hi1, Hw1 in H2. exact H2.
    + destruct H2 as [Hs2 Hw2]. right. split; [congruence|]. rewrite Hw2. exact Hw1.
Qed.

Lemma _handle_access_token_step login_credentials tmo sw :
  scheduler_step E sw (snd (_handle_access_token E login_credentials tmo sw)).
Proof.
  destruct sw as [me w].
  pose proof (_handle_access_token_frame E login_credentials tmo me w) as H.
  destruct (_handle_access_token E _ _ (me, w)) as [r [me1 w1]].
  destruct H as [-> Hme]. unfold scheduler_step. cbn.
  pose proof (f_equal __auth_scheduler Hme) as Hs.
  pose proof (f_equal __refresh_interval Hme) as Hi. cbn in Hs, Hi.
  split; [exact Hi|]. rewrite Hs. destruct (__auth_scheduler me); auto.
Qed.

Lemma _authenticate_step sw : scheduler_step E sw (snd (_authenticate E sw)).
Proof.
  destruct sw as [me w]. rewrite _authenticate_eq.
  pose proof (_handle_access_token_step (__login_credentials me) (__timeout me) (me, w)) as H.
  destruct (_handle_access_token E _ _ (me, w)) as [[[]|e] [me1 w1]]; [|exact H].
  destruct H as [Hi H]. cbn in Hi, H.
  unfold scheduler_step, refresh_scheduler, refresh_job in *. cbn [fst snd] in *.
  destruct (__auth_scheduler me1) as [id1|] eqn:H1.
  - cbn. split; [exact Hi|]. rewrite H1. exact H.
  - destruct (__auth_scheduler me) as [id|]; [destruct H; discriminate|].
    destruct H as [[_ Hw] | [? _]]; [|discriminate].
    rewrite Hi.
    destruct (add_job_fault E _) as [e|]; cbn; (split; [exact Hi|]);
      right; rewrite Hw; split; reflexivity.
Qed.

Lemma get_bearer_token_step sw : scheduler_step E sw (snd (get_bearer_token E sw)).
Proof.
  destruct sw as [me w]. rewrite get_bearer_token_eq.
  destruct (negb (truthy (__access_token me)) || bool_decide (__auth_scheduler me = None)).
  - pose proof (_authenticate_step (me, w)) as H.
    destruct (_authenticate E (me, w)) as [[[]|e] [me1 w1]]; exact H.
  - apply scheduler_step_refl.
Qed.

Lemma get_auth_header_step sw : scheduler_step E sw (snd (get_auth_header E sw)).
Proof.
  destruct sw as [me w]. rewrite get_auth_header_eq.
  pose proof (get_bearer_token_step (me, w)) as H.
  destruct (get_bearer_token E (me, w)) as [[[b|]|e] sw1]; exact H.
Qed.

Lemma tick_step sw : scheduler_step E sw (snd (tick E sw)).
Proof.
  destruct sw as [me w]. unfold tick. run_monad.
  destruct (__auth_scheduler me) as [id|] eqn:Hs; [|apply scheduler_step_refl].
  cbn. destruct (schedulers w !! id) as [sch|]; [|apply scheduler_step_refl].
  destruct (running sch && negb (bool_decide (jobs sch = []))); [|apply scheduler_step_refl].
  pose proof (_handle_access_token_step (__login_credentials me) (__timeout me) (me, w)) as H.
  destruct (_handle_access_token E _ _ (me, w)) as [[[]|e] sw1]; exact H.
Qed.

Lemma perform_step c sw : scheduler_step E sw (snd (perform E c sw)).
Proof.
  destruct c; cbn [perform].
  - apply _authenticate_step.
  - pose proof (get_bearer_token_step sw) as H. run_monad.
    destruct (get_bearer_token E sw) as [[?|?] ?]; exact H.
  - pose proof (get_auth_header_step sw) as H. run_monad.
    destruct (get_auth_header E sw) as [[?|?] ?]; exact H.
  - apply tick_step.
Qed.

Lemma perform_all_step cs sw : scheduler_step E sw (perform_all E cs sw).
Proof.
  revert sw. induction cs as [|c cs IH]; intros sw; cbn [perform_all].
  - apply scheduler_step_refl.
  - eapply scheduler_step_trans; [apply perform_step | apply IH].
Qed.

(** A call other than a tick that returns on an instance without a
    scheduler has run [_authenticate] to its end: the instance has its
    scheduler afterwards. *)
Lemma perform_returns_with_scheduler c sw :
  c <> Tick ->
  __auth_scheduler (fst sw) = None ->
  fst (perform E c sw) = Return tt ->
  __auth_scheduler (fst (snd (perform E c sw))) = Some (length (schedulers (snd sw))) /\
  add_job_fault E (refresh_job (fst sw)) = None.
Proof.
  destruct sw as [me w]. cbn [fst snd]. intros Hc Hs.
  assert (Hauth :
    fst (_authenticate E (me, w)) = Return tt ->
    __auth_scheduler (fst (snd (_authenticate E (me, w)))) = Some (length (schedulers w)) /\
    add_job_fault E (refresh_job me) = None).
  { rewrite _authenticate_eq.
    pose proof (_handle_access_token_frame E (__login_credentials me) (__timeout me) me w)
      as Hframe.
    destruct (_handle_access_token E _ _ (me, w)) as [[[]|e] [me1 w1]]; [|discriminate].
    destruct Hframe as [-> Hsame].
    pose proof (f_equal __auth_scheduler Hsame) as Hs1.
    pose proof (f_equal __refresh_interval Hsame) as Hi1.
    cbn in Hs1, Hi1. rewrite Hs in Hs1. rewrite Hs1.
    unfold refresh_job. rewrite Hi1.
    destruct (add_job_fault E _) as [e|]; [discriminate|].
    intros _. split; reflexivity. }
  assert (Hbearer :
    (exists b, fst (get_bearer_token E (me, w)) = Return b) ->
    __auth_scheduler (fst (snd (get_bearer_token E (me, w)))) = Some (length (schedulers w)) /\
    add_job_fault E (refresh_job me) = None).
  { rewrite get_bearer_token_eq, Hs.
    rewrite bool_decide_eq_true_2 by reflexivity. rewrite orb_true_r.
    destruct (_authenticate E (me, w)) as [[[]|e] [me1 w1]].
    - intros _. apply Hauth. reflexivity.
    - intros [b Hb]. discriminate. }
  destruct c; cbn [perform]; [exact Hauth| | |congruence].
  - run_monad. intros H. destruct (get_bearer_token E (me, w)) as [[b|e] sw1].
    + apply Hbearer. eauto.
    + discriminate.
  - run_monad. rewrite get_auth_header_eq. intros H.
    destruct (get_bearer_token E (me, w)) as [[[b|]|e] sw1];
      try (apply Hbearer; eauto); discriminate.
Qed.

(** With a scheduler that has no job, no call changes the schedulers and no
    tick runs. *)
Lemma jobless_scheduler_stays cs me w id sch :
  __auth_scheduler me = Some id -> schedulers w !! id = Some sch -> jobs sch = [] ->
  __auth_scheduler (fst (perform_all E cs (me, w))) = Some id /\
  schedulers (snd (perform_all E cs (me, w))) = schedulers w /\
  forall n, perform_all E (replicate n Tick) (perform_all E cs (me, w))
            = perform_all E cs (me, w).
Proof.
  intros Hs Hsch Hjobs.
  pose proof (perform_all_step cs (me, w)) as [_ H]. cbn [fst snd] in H. rewrite Hs in H.
  destruct (perform_all E cs (me, w)) as [me' w']. cbn [fst snd] in *.
  destruct H as [Hs' Hw']. split; [exact Hs'|]. split; [exact Hw'|].
  induction n as [|n IH]; [reflexivity|].
  cbn [replicate perform_all perform]. unfold tick at 1. run_monad.
  rewrite Hs'. cbn. rewrite Hw', Hsch, Hjobs.
  rewrite bool_decide_eq_true_2 by reflexivity. rewrite andb_false_r. exact IH.
Qed.
End Scheduler.

(** C8, at a failing input: the refresh interval is configured as the text
    ["300"], which the constructor accepts and [add_job] refuses.  The
    first token request fetches a token, assigns and starts the scheduler,
    and raises [TypeError] from [add_job].  From then on [_authenticate]
    and [get_bearer_token] return normally, although no job was ever
    scheduled: over every sequence of calls the one scheduler of the
    instance stays without a job and no tick refreshes the token. *)
Theorem refresh_job_is_never_scheduled :
  let E := refusing_text_interval (fun _ => token_response "abc123") in
  AuthService.__init__ E text_interval_config empty_world
    = (Return text_interval_auth, empty_world) /\
  let first := AuthService.get_bearer_token E (text_interval_auth, empty_world) in
  fst first = Raise (TypeError "unsupported type for timedelta seconds component: str") /\
  AuthService.__access_token (fst (snd first)) = PyStr "abc123" /\
  AuthService.__auth_scheduler (fst (snd first)) = Some 0%nat /\
  schedulers (snd (snd first)) = [jobless_scheduler] /\
  fst (AuthService._authenticate E (snd first)) = Return tt /\
  fst (AuthService.get_bearer_token E (snd first)) = Return (Some "Bearer abc123") /\
  forall cs : list call,
    AuthService.__auth_scheduler (fst (perform_all E cs (snd first))) = Some 0%nat /\
    schedulers (snd (perform_all E cs (snd first))) = [jobless_scheduler] /\
    forall n, perform_all E (replicate n Tick) (perform_all E cs (snd first))
              = perform_all E cs (snd first).
Proof.
  intros E. split; [vm_compute; reflexivity|]. intros first.
  assert (Hs : AuthService.__auth_scheduler (fst (snd first)) = Some 0%nat)
    by (vm_compute; reflexivity).
  assert (Hw : schedulers (snd (snd first)) = [jobless_scheduler])
    by (vm_compute; reflexivity).
  split; [vm_compute; reflexivity|]. split; [vm_compute; reflexivity|].
  split; [exact Hs|]. split; [exact Hw|].
  split; [vm_compute; reflexivity|]. split; [vm_compute; reflexivity|].
  intros cs.
  destruct (snd first) as [me w] eqn:Hfirst. cbn [fst snd] in Hs, Hw.
  destruct (jobless_scheduler_stays E cs me w 0%nat jobless_scheduler) as (H1 & H2 & H3).
  - exact Hs.
  - rewrite Hw. reflexivity.
  - reflexivity.
  - rewrite H2, Hw. auto.
Qed.

(** A first header request, an explicit re-authentication, a tick and a
    token request: three fetches, one scheduler, started once, one job. *)
Example four_calls_one_scheduler :
  let E := answering granted_denied_granted (fun _ => Return ∅) in
  let '(me, w) :=
    perform_all E [GetAuthHeader; Authenticate; Tick; GetBearerToken]
      (example_auth, empty_world) in
  schedulers w = [refresh_scheduler example_auth] /\
  AuthService.__auth_scheduler me = Some 0%nat /\
  AuthService.__access_token me = PyStr "abc123" /\
  length (posts w) = 3%nat.
Proof. vm_compute. repeat split; reflexivity. Qed.

(** ** The retry of a query *)

Section Retry.
Context (E : env).
Import GraphqlClient.

(** The token service reaches the token endpoint and the schedulers
    only: it builds no transport and sends no query; a call of
    [get_auth_header] issues at most one POST. *)
Lemma get_auth_header_world a w :
  transports (snd (snd (AuthService.get_auth_header E (a, w)))) = transports w /\
  executes (snd (snd (AuthService.get_auth_header E (a, w)))) = executes w /\
  (length (posts (snd (snd (AuthService.get_auth_header E (a, w)))))
   <= length (posts w) + 1)%nat.
Proof.
  assert (Ha : forall a w,
    transports (snd (snd (AuthService._authenticate E (a, w)))) = transports w /\
    executes (snd (snd (AuthService._authenticate E (a, w)))) = executes w /\
    (length (posts (snd (snd (AuthService._authenticate E (a, w)))))
     <= length (posts w) + 1)%nat).
  { intros a0 w0. rewrite _authenticate_posts, length_app. cbn.
    split; [|split; [|lia]]; rewrite _authenticate_eq;
      pose proof (_handle_access_token_frame E (AuthService.__login_credentials a0)
                    (AuthService.__timeout a0) a0 w0) as H;
      destruct (AuthService._handle_access_token E _ _ (a0, w0)) as [[[]|e] [a1 w1]];
      destruct H as [-> _]; try reflexivity;
      (destruct (AuthService.__auth_scheduler a1); [reflexivity|]);
      destruct (add_job_fault E _); reflexivity. }
  rewrite get_auth_header_eq, get_bearer_token_eq.
  destruct (negb (truthy (AuthService.__access_token a))
            || bool_decide (AuthService.__auth_scheduler a = None)).
  - specialize (Ha a w).
    destruct (AuthService._authenticate E (a, w)) as [[[]|e] [a1 w1]]; [|exact Ha].
    destruct (negb (truthy (AuthService.__access_token a1))); exact Ha.
  - cbn. repeat split; lia.
Qed.

(** [_initialize_client] leaves [_reauthenticated], the configuration and
    the log of sent queries alone and issues at most one POST; when it
    returns it has built exactly one transport, which is the client's
    from then on. *)
Lemma _initialize_client_frame c w :
  let '(r, (c', w')) := _initialize_client E (c, w) in
  _reauthenticated c' = _reauthenticated c /\
  _config c' = _config c /\
  executes w' = executes w /\
  (length (posts w') <= length (posts w) + 1)%nat /\
  match r with
  | Return _ => exists tr, transports w' = transports w ++ [tr] /\ client c' = Some tr
  | Raise _ => transports w' = transports w /\ client c' = client c
  end.
Proof.
  unfold _initialize_client, load_schema, subscript, getitem. run_monad.
  pose proof (get_auth_header_world (_auth_service c) w) as (Ht & He & Hp).
  destruct (AuthService.get_auth_header E (_auth_service c, w)) as [[header|e] [a1 w1]];
    cbn in Ht, He, Hp |- *; [|auto 6].
  destruct (schema_fault E) as [e|]; cbn; [auto 6|].
  destruct (_config c !! "api") as [api|]; cbn; [|auto 6].
  destruct (api !! "production_deployment") as [production|]; cbn; [|auto 6].
  destruct (truthy production); cbn.
  - destruct (api !! "prod_url") as [u|]; cbn; [|auto 6].
    repeat split; auto. eexists. rewrite Ht. split; reflexivity.
  - destruct (api !! "dev_url") as [u|]; cbn; [|auto 6].
    repeat split; auto. eexists. rewrite Ht. split; reflexivity.
Qed.

(** The guard written in [query] is always passed: [query] is its body
    calling [query]. *)
Lemma query_unfold q params sw :
  query E q params sw = query_body E (query E q params) q params sw.
Proof.
  rewrite query_equation_1. unfold query_body, execute. run_monad.
  destruct sw as [c w]. cbn [fst snd].
  destruct (execute_answer E (length (executes w))) as [response|e]; [reflexivity|].
  destruct e; cbn; try reflexivity.
  destruct (_reauthenticated c) eqn:Hflag; cbn; [reflexivity|].
  destruct (_initialize_client E _) as [[[]|e] [c2 w2]]; cbn; [|reflexivity].
  destruct (lt_dec _ _) as [_|Hno]; [reflexivity|].
  exfalso. apply Hno. unfold retries_left. cbn. rewrite Hflag. lia.
Qed.

(** [query], flattened: the first send, and after a protocol error on a
    client that has not yet re-authenticated, the re-initialization and
    the second send, whose response is not returned. *)
Lemma query_eq q params c w :
  query E q params (c, w) =
  let w1 := set_executes (fun l => l ++ [sent c q params]) w in
  match execute_answer E (length (executes w)) with
  | Return response => (Return response, (set_reauthenticated false c, w1))
  | Raise e =>
      if is_TransportProtocolError e && negb (_reauthenticated c) then
        match _initialize_client E (c, w1) with
        | (Return _, (c2, w2)) =>
            let w3 := set_executes (fun l => l ++ [sent c2 q params]) w2 in
            match execute_answer E (length (executes w2)) with
            | Return _ => (Return ∅, (set_reauthenticated false c2, w3))
            | Raise e3 => (Raise e3, (set_reauthenticated false c2, w3))
            end
        | (Raise e2, (c2, w2)) => (Raise e2, (set_reauthenticated false c2, w2))
        end
      else (Raise e, (set_reauthenticated false c, w1))
  end.
Proof.
  rewrite query_unfold. unfold query_body, execute. run_monad. cbn zeta.
  destruct (execute_answer E (length (executes w))) as [response|e]; [reflexivity|].
  destruct e; cbn; try reflexivity; try (destruct (_reauthenticated c); reflexivity).
  destruct (_reauthenticated c) eqn:Hflag; cbn; [reflexivity|].
  fold (sent c q params).
  destruct (_initialize_client E _) as [[[]|e] [c2 w2]]; cbn; [|reflexivity].
  rewrite query_unfold. unfold query_body, execute. run_monad. cbn.
  destruct (execute_answer E (length (executes w2))) as [response|e]; [reflexivity|].
  destruct e; reflexivity.
Qed.
End Retry.

(** C2. A call of [query] sends at most two requests, re-initializes the
    transport at most once (fetching at most one token for it), and always
    leaves [_reauthenticated] reset.  When the first send and, after the
    re-initialization, the second send both raise a transport protocol
    error, the call raises that error after exactly two sends and exactly
    one re-initialization; the second send went through the new transport. *)
Theorem query_retries_at_most_once (E : env) (q : string) (params : gmap string pyval)
    (c : GraphqlClient.t) (w : world) :
  let '(r, (c', w')) := GraphqlClient.query E q params (c, w) in
  ((length (executes w') <= length (executes w) + 2)%nat /\
   (length (transports w') <= length (transports w) + 1)%nat /\
   (length (posts w') <= length (posts w) + 1)%nat /\
   GraphqlClient._reauthenticated c' = false) /\
  (GraphqlClient._reauthenticated c = false ->
   execute_answer E (length (executes w)) = Raise TransportProtocolError ->
   execute_answer E (S (length (executes w))) = Raise TransportProtocolError ->
   fst (GraphqlClient._initialize_client E
          (c, set_executes (fun l => l ++ [sent c q params]) w)) = Return tt ->
   r = Raise TransportProtocolError /\
   exists tr,
     transports w' = transports w ++ [tr] /\
     executes w' = executes w ++ [sent c q params;
                                  {| exec_transport := Some tr;
                                     exec_query := q;
                                     exec_parameters := params |}]).
Proof.
  rewrite query_eq. cbn zeta.
  pose proof (_initialize_client_frame E c
                (set_executes (fun l => l ++ [sent c q params]) w)) as Hinit.
  destruct (execute_answer E (length (executes w))) as [response|e] eqn:H1.
  - split; [|discriminate]. cbn. rewrite length_app. cbn. repeat split; lia.
  - destruct (is_TransportProtocolError e && negb (GraphqlClient._reauthenticated c)) eqn:Hretry.
    + destruct (GraphqlClient._initialize_client E _) as [[[]|e2] [c2 w2]].
      * destruct Hinit as (_ & _ & Hex & Hp & tr & Htr & Hcl). cbn in Hex, Htr, Hp.
        assert (Hlen : length (executes w2) = S (length (executes w))).
        { rewrite Hex, length_app. cbn. lia. }
        assert (Hsent : executes w2 ++ [sent c2 q params] =
                        executes w ++ [sent c q params;
                                       {| exec_transport := Some tr;
                                          exec_query := q;
                                          exec_parameters := params |}]).
        { rewrite Hex. unfold sent. rewrite Hcl, <- app_assoc. reflexivity. }
        rewrite Hlen.
        destruct (execute_answer E (S (length (executes w)))) as [response|e3] eqn:H2; cbn.
        -- split; [|discriminate].
           rewrite length_app, Hlen, Htr, length_app. cbn. repeat split; lia.
        -- split.
           ++ rewrite length_app, Hlen, Htr, length_app. cbn. repeat split; lia.
           ++ intros _ _ [= ->] _. split; [reflexivity|].
              exists tr. split; [exact Htr | exact Hsent].
      * destruct Hinit as (_ & _ & Hex & Hp & Htr & _). cbn in Hex, Htr, Hp. cbn.
        split; [|discriminate].
        rewrite Hex, Htr, length_app. cbn. repeat split; lia.
    + cbn. split.
      * rewrite length_app. cbn. repeat split; lia.
      * intros Hflag [= ->]. rewrite Hflag in Hretry. discriminate.
Qed.

Lemma query_retries_at_most_once_witness :
  let E := answering (fun _ => token_response "abc123") always_rejected in
  exists c w,
    GraphqlClient.__init__ E example_config empty_world = (Return c, w) /\
    let '(r, (c', w')) := GraphqlClient.query E "query { robots }" ∅ (c, w) in
    r = Raise TransportProtocolError /\
    exists tr,
      transports w' = transports w ++ [tr] /\
      executes w' = executes w ++ [sent c "query { robots }" ∅;
                                   {| exec_transport := Some tr;
                                      exec_query := "query { robots }";
                                      exec_parameters := ∅ |}].
Proof.
  intros E.
  destruct (GraphqlClient.__init__ E example_config empty_world) as [[c|e] w] eqn:Hc;
    [|vm_compute in Hc; discriminate].
  exists c, w. split; [reflexivity|].
  assert (Hw : executes w = [] /\ GraphqlClient._reauthenticated c = false /\
               fst (GraphqlClient._initialize_client E
                      (c, set_executes (fun l => l ++ [sent c "query { robots }" ∅]) w))
               = Return tt).
  { vm_compute in Hc. injection Hc as <- <-. vm_compute. repeat split; reflexivity. }
  destruct Hw as (Hex & Hflag & Hinit).
  pose proof (query_retries_at_most_once E "query { robots }" ∅ c w) as H.
  destruct (GraphqlClient.query E "query { robots }" ∅ (c, w)) as [r [c' w']].
  apply H.
  - exact Hflag.
  - rewrite Hex. reflexivity.
  - rewrite Hex. reflexivity.
  - exact Hinit.
Defined.

(** The retry in general: when the first send raises a protocol error, the
    re-initialization returns and the second send is answered, [query]
    returns the empty dict, whatever the answer was. *)
Lemma query_retry_returns_empty_dict (E : env) (q : string) (params : gmap string pyval)
    (c : GraphqlClient.t) (w : world) (response : gmap string pyval) :
  GraphqlClient._reauthenticated c = false ->
  execute_answer E (length (executes w)) = Raise TransportProtocolError ->
  execute_answer E (S (length (executes w))) = Return response ->
  fst (GraphqlClient._initialize_client E
         (c, set_executes (fun l => l ++ [sent c q params]) w)) = Return tt ->
  fst (GraphqlClient.query E q params (c, w)) = Return ∅.
Proof.
  intros Hflag H1 H2 Hinit. rewrite query_eq, H1, Hflag. cbn.
  pose proof (_initialize_client_frame E c
                (set_executes (fun l => l ++ [sent c q params]) w)) as Hframe.
  destruct (GraphqlClient._initialize_client E _) as [[[]|e2] [c2 w2]]; [|discriminate].
  destruct Hframe as (_ & _ & Hex & _ & _). cbn in Hex.
  rewrite Hex, length_app. cbn. rewrite Nat.add_1_r, H2. reflexivity.
Qed.

(** C1, at a failing input: a client built from [example_config], whose
    first send raises a transport protocol error and whose second send,
    after one re-initialization of the transport, is answered with
    [robot_response].  [query] returns the empty dict and not that
    response (line 130 drops the result of the retry and line 146 returns
    [{}]); [query_async] raises [TypeError] on the same input.  Two sends
    and one re-initialization took place. *)
Theorem retried_response_is_dropped :
  let E := answering (fun _ => token_response "abc123") rejected_then_answered in
  exists c w,
    GraphqlClient.__init__ E example_config empty_world = (Return c, w) /\
    execute_answer E (length (executes w)) = Raise TransportProtocolError /\
    execute_answer E (S (length (executes w))) = Return robot_response /\
    let '(r, (c', w')) := GraphqlClient.query E "query { robots }" ∅ (c, w) in
    r = Return ∅ /\
    r <> Return robot_response /\
    length (executes w') = (length (executes w) + 2)%nat /\
    length (transports w') = (length (transports w) + 1)%nat /\
    fst (GraphqlClient.query_async E "query { robots }" ∅ (c, w))
      = Raise (TypeError "object dict can't be used in 'await' expression").
Proof.
  intros E.
  destruct (GraphqlClient.__init__ E example_config empty_world) as [[c|e] w] eqn:Hc;
    [|vm_compute in Hc; discriminate].
  exists c, w. split; [reflexivity|].
  vm_compute in Hc. injection Hc as <- <-.
  split; [reflexivity|]. split; [reflexivity|].
  vm_compute. repeat split; try reflexivity.
  intros H. discriminate H.
Qed.


(** * Further properties of the authentication service *)

(** ** The constructor *)

Section ConstructorFacts.
Context (E : env).
Import AuthService.

(** The constructor reads [user_api_key] and never uses it. *)
Lemma __init___ignores_inline_key config section key w :
  config !! "auth_service" = Some section ->
  __init__ E (<["auth_service" := <["user_api_key" := key]> section]> config) w
  = __init__ E config w.
Proof.
  intros Hsec. unfold __init__, __init___settings, __init___attributes.
  rewrite lookup_insert_eq, Hsec.
  unfold getitem. run_monad.
  rewrite !lookup_insert_ne by discriminate. rewrite lookup_insert_eq.
  destruct (section !! "endpoint") as [endpoint|]; [|reflexivity].
  destruct (section !! "user_email") as [email|]; [|reflexivity].
  destruct (section !! "user_api_key_file") as [file|]; [|reflexivity].
  destruct (section !! "user_api_key") as [key0|]; cbn;
    (destruct (is_None file); cbn;
     [rewrite ?lookup_insert_ne by discriminate; reflexivity|]);
    (destruct (get_docker_secret E file); [|reflexivity]);
    (destruct (read_file E file); cbn; [|reflexivity]);
    rewrite ?lookup_insert_ne by discriminate; reflexivity.
Qed.

(** Without a key file the key is [None], whatever the section says. *)
Lemma __init___without_key_file config section endpoint email w :
  config !! "auth_service" = Some section ->
  section !! "endpoint" = Some endpoint -> truthy endpoint = true ->
  section !! "user_email" = Some email -> truthy email = true ->
  section !! "user_api_key_file" = Some PyNone ->
  __init__ E config w = (Raise (ValueError "User api key must be provided."), w).
Proof.
  intros Hsec Hend Te Hmail Tm Hfile. unfold __init__, __init___settings, __init___attributes.
  rewrite Hsec.
  unfold getitem. run_monad. rewrite Hend, Hmail, Hfile.
  destruct (section !! "user_api_key"); cbn;
    destruct (section !! "refresh_interval"); cbn; rewrite Te, Tm; reflexivity.
Qed.
End ConstructorFacts.

(** X1. The API key given inline as [user_api_key] never matters: setting or
    changing it leaves the outcome of the construction as it is, and a
    section that names no key file ([user_api_key_file] is [None]) is
    refused with [ValueError] "User api key must be provided." even when it
    carries an inline key. *)
Theorem inline_api_key_is_ignored (E : env) (config : gmap string (gmap string pyval))
    (section : gmap string pyval) (key : pyval) (w : world) :
  config !! "auth_service" = Some section ->
  AuthService.__init__ E (<["auth_service" := <["user_api_key" := key]> section]> config) w
  = AuthService.__init__ E config w /\
  (forall endpoint email,
     section !! "endpoint" = Some endpoint -> truthy endpoint = true ->
     section !! "user_email" = Some email -> truthy email = true ->
     section !! "user_api_key_file" = Some PyNone ->
     AuthService.__init__ E
       (<["auth_service" := <["user_api_key" := key]> section]> config) w
     = (Raise (ValueError "User api key must be provided."), w)).
Proof.
  intros Hsec. split.
  - apply __init___ignores_inline_key. exact Hsec.
  - intros endpoint email Hend Te Hmail Tm Hfile.
    rewrite __init___ignores_inline_key by exact Hsec.
    eapply __init___without_key_file; eauto.
Qed.

Lemma inline_api_key_is_ignored_witness :
  let E := answering (fun _ => status_response 503) (fun _ => Return ∅) in
  AuthService.__init__ E
    (<["auth_service" := <["user_api_key" := PyStr "s3cret"]> inline_key_section]>
       inline_key_config) empty_world
  = (Raise (ValueError "User api key must be provided."), empty_world).
Proof.
  intros E.
  destruct (inline_api_key_is_ignored E inline_key_config inline_key_section
              (PyStr "s3cret") empty_world) as [_ H].
  - vm_compute. reflexivity.
  - apply (H (PyStr "https://login.example/token") (PyStr "a@b.c"));
      vm_compute; reflexivity.
Defined.

(** X2. The refresh job runs at the configured interval, 300 seconds when
    the configuration names none: the first authentication of a constructed
    instance that returns creates one scheduler, started, whose single job
    has [seconds] equal to [refresh_interval] of the section, or 300, and
    [max_instances] 1. *)
Theorem refresh_job_uses_configured_interval (E : env)
    (config : gmap string (gmap string pyval)) (w0 w0' : world) (me : AuthService.t)
    (w : world) :
  AuthService.__init__ E config w0 = (Return me, w0') ->
  fst (AuthService._authenticate E (me, w)) = Return tt ->
  exists section,
    config !! "auth_service" = Some section /\
    schedulers (snd (snd (AuthService._authenticate E (me, w)))) =
    schedulers w ++
      [ {| running := true;
           starts := 1;
           jobs := [ {| seconds := default (PyInt 300) (section !! "refresh_interval");
                        max_instances := 1 |} ];
           shutdowns := 0 |} ].
Proof.
  intros Hinit Hret.
  destruct (__init___returns E config w0 me w0' Hinit)
    as (section & endpoint & email & file & text & Hsec & _ & _ & _ & _ & _ & _ & _ & _ & _
        & Hme).
  exists section. split; [exact Hsec|].
  rewrite _authenticate_eq in Hret |- *.
  pose proof (_handle_access_token_frame E (AuthService.__login_credentials me)
                (AuthService.__timeout me) me w) as Hframe.
  destruct (AuthService._handle_access_token E _ _ (me, w)) as [[[]|e] [me1 w1]];
    [|discriminate].
  destruct Hframe as [-> Hsame].
  pose proof (f_equal AuthService.__auth_scheduler Hsame) as Hs.
  pose proof (f_equal AuthService.__refresh_interval Hsame) as Hi.
  cbn in Hs, Hi. rewrite Hs in Hret |- *. subst me. cbn in Hi.
  destruct (add_job_fault E (refresh_job me1)); [discriminate|].
  cbn. unfold refresh_scheduler. rewrite Hi. reflexivity.
Qed.

Lemma refresh_job_uses_configured_interval_witness :
  let E := answering (fun _ => token_response "abc123") (fun _ => Return ∅) in
  exists section,
    default_interval_config !! "auth_service" = Some section /\
    schedulers (snd (snd (AuthService._authenticate E (example_auth, empty_world)))) =
    schedulers empty_world ++
      [ {| running := true;
           starts := 1;
           jobs := [ {| seconds := default (PyInt 300) (section !! "refresh_interval");
                        max_instances := 1 |} ];
           shutdowns := 0 |} ].
Proof.
  intros E.
  apply (refresh_job_uses_configured_interval E default_interval_config
           empty_world empty_world example_auth empty_world);
    vm_compute; reflexivity.
Defined.

(** ** The fetch and the token requests *)

(** X3. The error contract of a token fetch.  [_handle_access_token] raises
    exactly when [requests.post] raises something that is not a
    [RequestException], or when a 2xx answer carries JSON that is not an
    object ([TypeError]) or an object without [access_token] ([KeyError]);
    and a fetch that raises leaves the instance, hence the cached token, as
    it was. *)
Theorem fetch_raises_exactly_when (E : env) (login_credentials : string) (tmo : Z)
    (me : AuthService.t) (w : world) (e : exn) :
  (fst (AuthService._handle_access_token E login_credentials tmo (me, w)) = Raise e <->
   (post_answer E (length (posts w)) = Raise e /\ is_RequestException e = false) \/
   (exists r,
      post_answer E (length (posts w)) = Return r /\ is_2xx r = true /\
      ((body r = Some JsonOther /\ e = TypeError "indices must be integers") \/
       (exists d, body r = Some (JsonDict d) /\ d !! "access_token" = None /\
                  e = KeyError "access_token")))) /\
  (fst (AuthService._handle_access_token E login_credentials tmo (me, w)) = Raise e ->
   fst (snd (AuthService._handle_access_token E login_credentials tmo (me, w))) = me).
Proof.
  rewrite _handle_access_token_eq. cbn zeta.
  assert (Hback : forall (a : result response) (out : result unit),
    (forall r, a = Return r -> is_2xx r = true -> body r = Some JsonOther ->
       out = Raise (TypeError "indices must be integers")) ->
    (forall r d, a = Return r -> is_2xx r = true -> body r = Some (JsonDict d) ->
       d !! "access_token" = None -> out = Raise (KeyError "access_token")) ->
    (forall e', a = Raise e' -> is_RequestException e' = false -> out = Raise e') ->
    (a = Raise e /\ is_RequestException e = false) \/
    (exists r,
       a = Return r /\ is_2xx r = true /\
       ((body r = Some JsonOther /\ e = TypeError "indices must be integers") \/
        (exists d, body r = Some (JsonDict d) /\ d !! "access_token" = None /\
                   e = KeyError "access_token"))) ->
    out = Raise e).
  { intros a out Hother Hdict Hraise
      [[Hq Hf] | (r' & Hq & H2' & [[Hb' ->] | (d' & Hb' & Hd' & ->)])]; eauto. }
  destruct (post_answer E (length (posts w))) as [r|e0] eqn:Hp.
  - destruct (is_2xx r) eqn:H2.
    + destruct (body r) as [[d|]|] eqn:Hb.
      * destruct (d !! "access_token") as [token|] eqn:Hd; cbn.
        -- split; [|discriminate]. split; [discriminate|].
           apply Hback; intros; congruence.
        -- split; [|reflexivity]. split.
           ++ intros [= <-]. right. exists r. split; [reflexivity|]. split; [exact H2|].
              right. exists d. auto.
           ++ apply Hback; intros; congruence.
      * cbn. split; [|reflexivity]. split.
        -- intros [= <-]. right. exists r. split; [reflexivity|]. split; [exact H2|].
           left. auto.
        -- apply Hback; intros; congruence.
      * cbn. split; [|discriminate]. split; [discriminate|].
        apply Hback; intros; congruence.
    + cbn. split; [|discriminate]. split; [discriminate|].
      apply Hback; intros; congruence.
  - destruct (is_RequestException e0) eqn:Hre; cbn.
    + split; [|discriminate]. split; [discriminate|].
      apply Hback; intros; congruence.
    + split; [|reflexivity]. split.
      * intros [= <-]. left. auto.
      * apply Hback; intros; congruence.
Qed.

Lemma fetch_raises_exactly_when_witness :
  let E := answering (fun _ => Raise OSError) (fun _ => Return ∅) in
  fst (AuthService._handle_access_token E "YUBiLmM6a2V5" 5
         (authenticated_auth, authenticated_world)) = Raise OSError /\
  fst (snd (AuthService._handle_access_token E "YUBiLmM6a2V5" 5
              (authenticated_auth, authenticated_world))) = authenticated_auth.
Proof.
  intros E.
  destruct (fetch_raises_exactly_when E "YUBiLmM6a2V5" 5
              authenticated_auth authenticated_world OSError) as [[_ Hif] Hkeep].
  assert (H : fst (AuthService._handle_access_token E "YUBiLmM6a2V5" 5
                     (authenticated_auth, authenticated_world)) = Raise OSError).
  { apply Hif. left. split; reflexivity. }
  split; [exact H | exact (Hkeep H)].
Defined.

(** X4. What a token request costs: [get_bearer_token] on an instance that
    has a non-empty token and a scheduler returns the bearer of that token
    and touches nothing; in every other state it issues exactly one POST,
    also when the previous requests failed: a failure is never cached. *)
Theorem get_bearer_token_posts (E : env) (me : AuthService.t) (w : world) :
  (truthy (AuthService.__access_token me) = true ->
   AuthService.__auth_scheduler me <> None ->
   AuthService.get_bearer_token E (me, w) =
   (Return (Some ("Bearer " +:+ py_str (AuthService.__access_token me))), (me, w))) /\
  (truthy (AuthService.__access_token me) = false \/ AuthService.__auth_scheduler me = None ->
   posts (snd (snd (AuthService.get_bearer_token E (me, w)))) =
   posts w ++ [token_request me (AuthService.__login_credentials me)
                 (AuthService.__timeout me)]).
Proof.
  split.
  - intros Ht Hs. destruct (AuthService.__auth_scheduler me) as [id|] eqn:Hid;
      [|contradiction].
    rewrite get_bearer_token_eq, Ht, Hid. reflexivity.
  - intros Hneeds. rewrite get_bearer_token_eq.
    replace (negb (truthy (AuthService.__access_token me))
             || bool_decide (AuthService.__auth_scheduler me = None)) with true.
    2: { destruct Hneeds as [-> | ->]; [reflexivity|].
         rewrite bool_decide_eq_true_2 by reflexivity. apply eq_sym, orb_true_r. }
    pose proof (_authenticate_posts E me w) as H.
    destruct (AuthService._authenticate E (me, w)) as [[[]|e] [me1 w1]]; exact H.
Qed.

Lemma get_bearer_token_posts_witness :
  let E := answering (fun _ => status_response 401) (fun _ => Return ∅) in
  AuthService.get_bearer_token E (authenticated_auth, authenticated_world) =
  (Return (Some "Bearer old"), (authenticated_auth, authenticated_world)) /\
  posts (snd (snd (AuthService.get_bearer_token E
                     (AuthService.set_access_token PyNone authenticated_auth,
                      authenticated_world)))) =
  posts authenticated_world ++ [token_request example_auth "YUBiLmM6a2V5" 5].
Proof.
  intros E. split.
  - apply (get_bearer_token_posts E authenticated_auth authenticated_world);
      [reflexivity | discriminate].
  - apply (get_bearer_token_posts E
             (AuthService.set_access_token PyNone authenticated_auth) authenticated_world).
    left. reflexivity.
Defined.

(** ** Token and scheduler over a lifetime *)

Section Lifetime.
Context (E : env).
Import AuthService.

(** A fetch that raises leaves the instance as it was. *)
Lemma fetch_state me w :
  match _handle_access_token E (__login_credentials me) (__timeout me) (me, w) with
  | (Return _, _) => True
  | (Raise _, (me1, _)) => me1 = me
  end.
Proof.
  rewrite _handle_access_token_eq. cbn zeta.
  destruct (post_answer E (length (posts w))) as [r|e].
  - destruct (is_2xx r); [|exact I].
    destruct (body r) as [[d|]|]; try exact I; try reflexivity.
    destruct (d !! "access_token"); [exact I | reflexivity].
  - destruct (is_RequestException e); [exact I | reflexivity].
Qed.

(** While an instance has no scheduler, no call changes its token. *)
Lemma perform_token_without_scheduler c sw :
  __auth_scheduler (fst (snd (perform E c sw))) = None ->
  __access_token (fst (snd (perform E c sw))) = __access_token (fst sw).
Proof.
  destruct sw as [me w].
  assert (Hauth :
    __auth_scheduler (fst (snd (_authenticate E (me, w)))) = None ->
    __access_token (fst (snd (_authenticate E (me, w)))) = __access_token me).
  { rewrite _authenticate_eq.
    pose proof (fetch_state me w) as Hf.
    destruct (_handle_access_token E _ _ (me, w)) as [[[]|e] [me1 w1]]; cbn in Hf |- *.
    - destruct (__auth_scheduler me1) eqn:Hs1; cbn; [intros H; congruence|].
      destruct (add_job_fault E _); cbn; intros H; discriminate.
    - intros _. rewrite Hf. reflexivity. }
  assert (Hbearer :
    __auth_scheduler (fst (snd (get_bearer_token E (me, w)))) = None ->
    __access_token (fst (snd (get_bearer_token E (me, w)))) = __access_token me).
  { rewrite get_bearer_token_eq.
    destruct (negb (truthy (__access_token me)) || bool_decide (__auth_scheduler me = None));
      [|reflexivity].
    destruct (_authenticate E (me, w)) as [[[]|e] [me1 w1]]; exact Hauth. }
  destruct c; cbn [perform].
  - exact Hauth.
  - run_monad. destruct (get_bearer_token E (me, w)) as [[?|?] ?]; exact Hbearer.
  - run_monad. rewrite get_auth_header_eq.
    destruct (get_bearer_token E (me, w)) as [[[b|]|e] sw1]; exact Hbearer.
  - unfold tick. run_monad.
    destruct (__auth_scheduler me) as [id|] eqn:Hs; [|reflexivity]. cbn.
    destruct (schedulers w !! id) as [sch|]; [|reflexivity].
    destruct (running sch && negb (bool_decide (jobs sch = []))); [|reflexivity].
    pose proof (_handle_access_token_step E (__login_credentials me) (__timeout me) (me, w))
      as [_ Hstep].
    cbn in Hstep. rewrite Hs in Hstep.
    destruct (_handle_access_token E _ _ (me, w)) as [[[]|e] sw1];
      cbn in Hstep |- *; destruct Hstep as [Hsome _]; congruence.
Qed.
End Lifetime.

(** X5. A token is only ever held together with a scheduler.  Over any
    sequence of [_authenticate], [get_bearer_token], [get_auth_header] calls
    and ticks, an instance that ends without a scheduler holds the token it
    started with; so an instance from the constructor that holds a token
    has started its refresh scheduler, and the test
    [self.__auth_scheduler is None] of [get_bearer_token] never decides
    alone. *)
Theorem token_needs_a_scheduler (E : env) (cs : list call) (me : AuthService.t) (w : world) :
  (AuthService.__auth_scheduler (fst (perform_all E cs (me, w))) = None ->
   AuthService.__access_token (fst (perform_all E cs (me, w)))
   = AuthService.__access_token me) /\
  (forall config w0 w0',
     AuthService.__init__ E config w0 = (Return me, w0') ->
     truthy (AuthService.__access_token (fst (perform_all E cs (me, w)))) = true ->
     AuthService.__auth_scheduler (fst (perform_all E cs (me, w))) <> None).
Proof.
  assert (Hgen : forall cs sw,
    AuthService.__auth_scheduler (fst (perform_all E cs sw)) = None ->
    AuthService.__access_token (fst (perform_all E cs sw))
    = AuthService.__access_token (fst sw)).
  { clear. induction cs as [|c cs IH]; intros sw Hnone; cbn [perform_all] in *.
    - reflexivity.
    - rewrite (IH _ Hnone). apply perform_token_without_scheduler.
      pose proof (perform_all_step E cs (snd (perform E c sw))) as [_ Hstep].
      destruct (AuthService.__auth_scheduler (fst (snd (perform E c sw)))) as [id|];
        [|reflexivity].
      destruct Hstep as [Hsome _]. congruence. }
  split.
  - apply (Hgen cs (me, w)).
  - intros config w0 w0' Hinit Ht Hnone.
    rewrite (Hgen cs (me, w) Hnone) in Ht.
    destruct (__init___returns E config w0 me w0' Hinit)
      as (? & ? & ? & ? & ? & _ & _ & _ & _ & _ & _ & _ & _ & _ & _ & ->).
    cbn in Ht. discriminate.
Qed.

Lemma token_needs_a_scheduler_witness :
  let E := answering (fun _ => empty_object_response) (fun _ => Return ∅) in
  AuthService.__access_token
    (fst (perform_all E [GetBearerToken; Authenticate; GetAuthHeader]
            (example_auth, empty_world))) = PyNone.
Proof.
  intros E.
  apply (token_needs_a_scheduler E [GetBearerToken; Authenticate; GetAuthHeader]
           example_auth empty_world).
  vm_compute. reflexivity.
Defined.

Section SchedulerOnce.
Context (E : env).
Import AuthService.

Lemma perform_all_app cs1 cs2 sw :
  perform_all E (cs1 ++ cs2) sw = perform_all E cs2 (perform_all E cs1 sw).
Proof.
  revert sw. induction cs1 as [|c cs1 IH]; intros sw; [reflexivity|].
  cbn [app perform_all]. apply IH.
Qed.

(** An instance that has a scheduler keeps it. *)
Lemma perform_all_keeps_scheduler cs sw id :
  __auth_scheduler (fst sw) = Some id ->
  __auth_scheduler (fst (perform_all E cs sw)) = Some id.
Proof.
  intros Hs. pose proof (perform_all_step E cs sw) as [_ H].
  rewrite Hs in H. apply H.
Qed.
End SchedulerOnce.

(** X18. The refresh job is scheduled once.  When [add_job] accepts the
    refresh job of an instance that has no scheduler yet, then as soon as a
    call of [_authenticate], [get_bearer_token] or [get_auth_header] has
    returned, whatever came before it, the instance has its scheduler: the
    one new scheduler object, started once and holding exactly the one
    refresh job; and every later call and tick leaves it so. *)
Theorem refresh_job_is_scheduled_once (E : env) (cs1 cs2 : list call) (c : call)
    (me : AuthService.t) (w : world) :
  AuthService.__auth_scheduler me = None ->
  add_job_fault E (refresh_job me) = None ->
  c <> Tick ->
  fst (perform E c (perform_all E cs1 (me, w))) = Return tt ->
  let '(me', w') := perform_all E (cs1 ++ c :: cs2) (me, w) in
  AuthService.__auth_scheduler me' = Some (length (schedulers w)) /\
  schedulers w' = schedulers w ++ [refresh_scheduler me].
Proof.
  intros Hs Hjob Hc Hret.
  assert (Hsome : exists id,
    AuthService.__auth_scheduler (fst (perform_all E (cs1 ++ c :: cs2) (me, w))) = Some id).
  { rewrite perform_all_app. cbn [perform_all].
    destruct (AuthService.__auth_scheduler (fst (perform_all E cs1 (me, w))))
      as [id|] eqn:Hmid.
    - exists id. apply perform_all_keeps_scheduler.
      pose proof (perform_step E c (perform_all E cs1 (me, w))) as [_ H].
      rewrite Hmid in H. apply H.
    - eexists. apply perform_all_keeps_scheduler.
      apply (perform_returns_with_scheduler E c _ Hc Hmid Hret). }
  pose proof (perform_all_step E (cs1 ++ c :: cs2) (me, w)) as [_ H].
  destruct (perform_all E (cs1 ++ c :: cs2) (me, w)) as [me' w'].
  cbn [fst snd] in *. rewrite Hs, Hjob in H.
  destruct Hsome as [id Hid].
  destruct H as [[Hnone _] | H]; [congruence | exact H].
Qed.

Lemma refresh_job_is_scheduled_once_witness :
  let E := answering granted_denied_granted (fun _ => Return ∅) in
  let '(me', w') :=
    perform_all E [GetAuthHeader; Authenticate; Tick; GetBearerToken]
      (example_auth, empty_world) in
  AuthService.__auth_scheduler me' = Some 0%nat /\
  schedulers w' = [] ++ [refresh_scheduler example_auth].
Proof.
  intros E.
  apply (refresh_job_is_scheduled_once E [] [Authenticate; Tick; GetBearerToken]
           GetAuthHeader example_auth empty_world).
  - reflexivity.
  - reflexivity.
  - discriminate.
  - vm_compute. reflexivity.
Defined.

(** ** Copies and disposal *)

(** X6. A deep copy keeps the endpoint, the credentials, the interval and
    the timeout, and has neither the token nor the scheduler of the
    original.  Its first token request therefore fetches a token of its
    own, and when that request returns the copy has a new scheduler with
    its own refresh job, while the scheduler of the original is left as it
    was. *)
Theorem deepcopy_starts_its_own_scheduler (E : env) (me : AuthService.t) (w : world)
    (id : nat) (sch : scheduler) :
  AuthService.__auth_scheduler me = Some id ->
  schedulers w !! id = Some sch ->
  let copy := AuthService.__deepcopy__ me in
  (AuthService.__access_token copy = PyNone /\
   AuthService.__auth_scheduler copy = None /\
   AuthService.__endpoint copy = AuthService.__endpoint me /\
   AuthService.__login_credentials copy = AuthService.__login_credentials me /\
   AuthService.__refresh_interval copy = AuthService.__refresh_interval me /\
   AuthService.__timeout copy = AuthService.__timeout me) /\
  let '(r, (copy', w')) := AuthService.get_bearer_token E (copy, w) in
  posts w' = posts w ++ [token_request me (AuthService.__login_credentials me)
                           (AuthService.__timeout me)] /\
  (forall b, r = Return b ->
     AuthService.__auth_scheduler copy' = Some (length (schedulers w)) /\
     length (schedulers w) <> id /\
     schedulers w' = schedulers w ++ [refresh_scheduler me] /\
     schedulers w' !! id = Some sch).
Proof.
  intros Hs Hsch copy.
  split; [repeat split|].
  assert (Hlt : (id < length (schedulers w))%nat) by (eapply lookup_lt_Some; eauto).
  rewrite get_bearer_token_eq. cbn [AuthService.__access_token copy
    AuthService.__deepcopy__ AuthService.set_auth_scheduler AuthService.set_access_token
    truthy negb orb].
  rewrite _authenticate_eq.
  pose proof (_handle_access_token_frame E (AuthService.__login_credentials copy)
                (AuthService.__timeout copy) copy w) as Hframe.
  destruct (AuthService._handle_access_token E _ _ (copy, w)) as [[[]|e] [me1 w1]].
  - destruct Hframe as [-> Hsame].
    pose proof (f_equal AuthService.__auth_scheduler Hsame) as Hs1.
    pose proof (f_equal AuthService.__refresh_interval Hsame) as Hi1.
    cbn in Hs1, Hi1. rewrite Hs1.
    destruct (add_job_fault E (refresh_job me1)); cbn;
      (split; [reflexivity|]); [discriminate|]. intros b _.
    split; [reflexivity|]. split; [lia|].
    unfold refresh_scheduler. rewrite Hi1. split; [reflexivity|].
    rewrite lookup_app_l by exact Hlt. exact Hsch.
  - destruct Hframe as [-> _]. split; [reflexivity|]. discriminate.
Qed.

Lemma deepcopy_starts_its_own_scheduler_witness :
  let E := answering (fun _ => token_response "abc123") (fun _ => Return ∅) in
  let copy := AuthService.__deepcopy__ authenticated_auth in
  (AuthService.__access_token copy = PyNone /\
   AuthService.__auth_scheduler copy = None /\
   AuthService.__endpoint copy = AuthService.__endpoint authenticated_auth /\
   AuthService.__login_credentials copy = AuthService.__login_credentials authenticated_auth /\
   AuthService.__refresh_interval copy = AuthService.__refresh_interval authenticated_auth /\
   AuthService.__timeout copy = AuthService.__timeout authenticated_auth) /\
  let '(r, (copy', w')) := AuthService.get_bearer_token E (copy, authenticated_world) in
  posts w' = posts authenticated_world ++ [token_request authenticated_auth "YUBiLmM6a2V5" 5] /\
  (forall b, r = Return b ->
     AuthService.__auth_scheduler copy' = Some (length (schedulers authenticated_world)) /\
     length (schedulers authenticated_world) <> 0%nat /\
     schedulers w' = schedulers authenticated_world ++ [refresh_scheduler authenticated_auth] /\
     schedulers w' !! 0%nat = Some (refresh_scheduler example_auth)).
Proof.
  intros E.
  apply (deepcopy_starts_its_own_scheduler E authenticated_auth authenticated_world
           0%nat (refresh_scheduler example_auth)); reflexivity.
Defined.

Section Disposal.
Context (E : env).
Import AuthService.

(** [__del__] on an instance whose scheduler runs: one call of [shutdown],
    which stops the scheduler when it does not fail. *)
Lemma __del___running me w id sch :
  __auth_scheduler me = Some id -> schedulers w !! id = Some sch -> running sch = true ->
  shutdown_fault E = None ->
  __del__ E (Instance me, w) =
  (Return tt,
   (Instance me,
    set_schedulers
      (fun l => <[id := {| running := false;
                           starts := starts sch;
                           jobs := jobs sch;
                           shutdowns := S (shutdowns sch) |}]> l) w)).
Proof.
  intros Hs Hsch Hrun Hfault. unfold __del__, shutdown, on_scheduler. run_monad.
  cbn. rewrite Hs. cbn. rewrite Hsch, Hrun, Hfault. reflexivity.
Qed.

(** A tick of a scheduler that does not run does nothing. *)
Lemma tick_stopped me w id sch :
  __auth_scheduler me = Some id -> schedulers w !! id = Some sch -> running sch = false ->
  tick E (me, w) = (Return tt, (me, w)).
Proof.
  intros Hs Hsch Hrun. unfold tick. run_monad. rewrite Hs. cbn. rewrite Hsch, Hrun.
  reflexivity.
Qed.

Lemma ticks_stopped n me w id sch :
  __auth_scheduler me = Some id -> schedulers w !! id = Some sch -> running sch = false ->
  perform_all E (replicate n Tick) (me, w) = (me, w).
Proof.
  intros Hs Hsch Hrun. induction n as [|n IH]; [reflexivity|].
  cbn [replicate perform_all perform]. rewrite (tick_stopped me w id sch) by assumption.
  exact IH.
Qed.
End Disposal.

(** X7. Disposal stops the refresh.  After [__del__] on an instance whose
    scheduler runs, and whose shutdown does not fail, no tick fetches a
    token any more: any number of intervals later the instance and the
    world are as [__del__] left them, and [__del__] itself has issued no
    POST. *)
Theorem disposal_stops_the_refresh (E : env) (me : AuthService.t) (w : world)
    (id : nat) (sch : scheduler) (n : nat) :
  AuthService.__auth_scheduler me = Some id ->
  schedulers w !! id = Some sch ->
  running sch = true ->
  shutdown_fault E = None ->
  let disposed := snd (snd (AuthService.__del__ E (AuthService.Instance me, w))) in
  AuthService.__del__ E (AuthService.Instance me, w)
    = (Return tt, (AuthService.Instance me, disposed)) /\
  perform_all E (replicate n Tick) (me, disposed) = (me, disposed) /\
  posts disposed = posts w.
Proof.
  intros Hs Hsch Hrun Hfault disposed. subst disposed.
  assert (Hlt : (id < length (schedulers w))%nat) by (eapply lookup_lt_Some; eauto).
  rewrite (__del___running E me w id sch Hs Hsch Hrun Hfault). cbn [snd].
  split; [reflexivity|]. split; [|reflexivity].
  apply (ticks_stopped E n me _ id
           {| running := false; starts := starts sch; jobs := jobs sch;
              shutdowns := S (shutdowns sch) |}).
  - exact Hs.
  - cbn. apply list_lookup_insert_eq. exact Hlt.
  - reflexivity.
Qed.

Lemma disposal_stops_the_refresh_witness :
  let E := answering (fun _ => token_response "abc123") (fun _ => Return ∅) in
  let disposed :=
    snd (snd (AuthService.__del__ E
                (AuthService.Instance authenticated_auth, authenticated_world))) in
  AuthService.__del__ E (AuthService.Instance authenticated_auth, authenticated_world)
    = (Return tt, (AuthService.Instance authenticated_auth, disposed)) /\
  perform_all E (replicate 3 Tick) (authenticated_auth, disposed)
    = (authenticated_auth, disposed) /\
  posts disposed = posts authenticated_world.
Proof.
  intros E.
  apply (disposal_stops_the_refresh E authenticated_auth authenticated_world
           0%nat (refresh_scheduler example_auth) 3%nat); reflexivity.
Defined.

(** * Further properties of the GraphQL client *)

Section ClientFacts.
Context (E : env).
Import GraphqlClient.

(** [_initialize_client] on a client whose token service holds a token and
    a scheduler: no fetch; the transport carries the cached token. *)
Lemma _initialize_client_cached c w id api production u :
  truthy (AuthService.__access_token (_auth_service c)) = true ->
  AuthService.__auth_scheduler (_auth_service c) = Some id ->
  schema_fault E = None ->
  _config c !! "api" = Some api ->
  api !! "production_deployment" = Some production ->
  api !! (if truthy production then "prod_url" else "dev_url") = Some u ->
  let tr := {| transport_url := u;
               transport_headers :=
                 Some {[ "authorization" :=
                           "Bearer " +:+ py_str (AuthService.__access_token (_auth_service c)) ]} |} in
  _initialize_client E (c, w) =
  (Return tt,
   (set_client (Some tr) (set_auth_service (_auth_service c) c),
    set_transports (fun l => l ++ [tr]) w)).
Proof.
  intros Ht Hs Hschema Hapi Hprod Hurl tr. subst tr.
  unfold _initialize_client, load_schema, subscript, getitem. run_monad.
  rewrite get_auth_header_eq, (get_bearer_token_cached E _ w id Ht Hs). cbn.
  rewrite Hschema. cbn. rewrite Hapi. cbn. rewrite Hprod. cbn.
  destruct (truthy production); cbn; rewrite Hurl; reflexivity.
Qed.

(** [_initialize_client] when the token fetch fails: the transport is built
    without headers. *)
Lemma _initialize_client_unauthenticated c w api production u :
  AuthService.__access_token (_auth_service c) = PyNone ->
  AuthService.__auth_scheduler (_auth_service c) = None ->
  fetch_fails (post_answer E (length (posts w))) ->
  add_job_fault E (refresh_job (_auth_service c)) = None ->
  schema_fault E = None ->
  _config c !! "api" = Some api ->
  api !! "production_deployment" = Some production ->
  api !! (if truthy production then "prod_url" else "dev_url") = Some u ->
  exists c' w',
    _initialize_client E (c, w) = (Return tt, (c', w')) /\
    client c' = Some {| transport_url := u; transport_headers := None |} /\
    AuthService.__access_token (_auth_service c') = PyNone /\
    transports w' = transports w ++ [ {| transport_url := u; transport_headers := None |} ] /\
    schedulers w' = schedulers w ++ [refresh_scheduler (_auth_service c)].
Proof.
  intros Htok Hs Hfail Hjob Hschema Hapi Hprod Hurl.
  unfold _initialize_client, load_schema, subscript, getitem. run_monad.
  rewrite get_auth_header_eq, get_bearer_token_eq, Htok. cbn [truthy negb orb].
  rewrite _authenticate_eq, failed_fetch_clears by exact Hfail.
  change (refresh_job (AuthService.set_access_token PyNone (_auth_service c)))
    with (refresh_job (_auth_service c)).
  cbn [AuthService.__auth_scheduler AuthService.set_access_token]. rewrite Hs, Hjob. cbn.
  rewrite Hschema. cbn. rewrite Hapi. cbn. rewrite Hprod. cbn.
  destruct (truthy production); cbn; rewrite Hurl; cbn;
    (eexists; eexists; split; [reflexivity|]; cbn; repeat split; reflexivity).
Qed.
End ClientFacts.

(** X8. A call of [query] whose first send is answered, or raises anything
    but a transport protocol error, hands that answer to the caller
    unchanged after this single send: nothing is re-initialized, no token
    is fetched, and the only change of the client is that
    [_reauthenticated] is [False]. *)
Theorem query_passes_first_answer_through (E : env) (q : string)
    (params : gmap string pyval) (c : GraphqlClient.t) (w : world) :
  execute_answer E (length (executes w)) <> Raise TransportProtocolError ->
  GraphqlClient.query E q params (c, w) =
  (execute_answer E (length (executes w)),
   (GraphqlClient.set_reauthenticated false c,
    set_executes (fun l => l ++ [sent c q params]) w)).
Proof.
  intros Hnot. rewrite query_eq. cbn zeta.
  destruct (execute_answer E (length (executes w))) as [response|e]; [reflexivity|].
  destruct e; try reflexivity. contradiction.
Qed.

Lemma query_passes_first_answer_through_witness :
  let E := answering (fun _ => token_response "abc123") (fun _ => Raise TransportQueryError) in
  exists c w,
    GraphqlClient.__init__ E example_config empty_world = (Return c, w) /\
    GraphqlClient.query E "query { robots }" ∅ (c, w) =
    (Raise TransportQueryError,
     (GraphqlClient.set_reauthenticated false c,
      set_executes (fun l => l ++ [sent c "query { robots }" ∅]) w)).
Proof.
  intros E.
  destruct (GraphqlClient.__init__ E example_config empty_world) as [[c|e] w] eqn:Hc;
    [|vm_compute in Hc; discriminate].
  exists c, w. split; [reflexivity|].
  apply (query_passes_first_answer_through E "query { robots }" ∅ c w).
  discriminate.
Defined.

(** X9. The retry does not refresh the token.  When the token service of
    the client holds a token and its scheduler, the re-initialization after
    a protocol error fetches nothing and builds the transport from the
    cached token; on a client whose transport was built that way, the
    second send therefore repeats the first, through an equal transport
    with the same bearer. *)
Theorem retry_reuses_cached_token (E : env) (q : string) (params : gmap string pyval)
    (c : GraphqlClient.t) (w : world) (id : nat) (api : gmap string pyval)
    (production u : pyval) :
  GraphqlClient._reauthenticated c = false ->
  truthy (AuthService.__access_token (GraphqlClient._auth_service c)) = true ->
  AuthService.__auth_scheduler (GraphqlClient._auth_service c) = Some id ->
  schema_fault E = None ->
  GraphqlClient._config c !! "api" = Some api ->
  api !! "production_deployment" = Some production ->
  api !! (if truthy production then "prod_url" else "dev_url") = Some u ->
  execute_answer E (length (executes w)) = Raise TransportProtocolError ->
  let tr := {| transport_url := u;
               transport_headers :=
                 Some {[ "authorization" :=
                           "Bearer " +:+ py_str (AuthService.__access_token
                                                   (GraphqlClient._auth_service c)) ]} |} in
  let w' := snd (snd (GraphqlClient.query E q params (c, w))) in
  posts w' = posts w /\
  transports w' = transports w ++ [tr] /\
  executes w' = executes w ++ [sent c q params;
                               {| exec_transport := Some tr;
                                  exec_query := q;
                                  exec_parameters := params |}] /\
  (GraphqlClient.client c = Some tr ->
   executes w' = executes w ++ [sent c q params; sent c q params]).
Proof.
  intros Hflag Ht Hs Hschema Hapi Hprod Hurl H1 tr w'. subst w'.
  rewrite query_eq, H1, Hflag. cbn [is_TransportProtocolError negb andb].
  cbn zeta.
  rewrite (_initialize_client_cached E c _ id api production u Ht Hs Hschema Hapi Hprod Hurl).
  fold tr.
  match goal with
  | |- context [match execute_answer E ?n with _ => _ end] =>
      destruct (execute_answer E n) as [response|e3]
  end;
    (split; [reflexivity|]; split; [reflexivity|]; split;
     [cbn; rewrite <- app_assoc; reflexivity|];
     intros Hcl; cbn; rewrite <- app_assoc; unfold sent; rewrite Hcl; reflexivity).
Qed.

Lemma retry_reuses_cached_token_witness :
  let E := answering (fun _ => token_response "abc123") rejected_then_answered in
  exists c w tr,
    GraphqlClient.__init__ E example_config empty_world = (Return c, w) /\
    GraphqlClient.client c = Some tr /\
    let w' := snd (snd (GraphqlClient.query E "query { robots }" ∅ (c, w))) in
    posts w' = posts w /\
    transports w' = transports w ++ [tr] /\
    executes w' = executes w ++ [sent c "query { robots }" ∅; sent c "query { robots }" ∅].
Proof.
  intros E.
  assert (Hfacts :
    match GraphqlClient.__init__ E example_config empty_world with
    | (Return c, w) =>
        GraphqlClient._reauthenticated c = false /\
        AuthService.__access_token (GraphqlClient._auth_service c) = PyStr "abc123" /\
        AuthService.__auth_scheduler (GraphqlClient._auth_service c) = Some 0%nat /\
        match GraphqlClient._config c !! "api" with
        | Some api =>
            api !! "production_deployment" = Some (PyOther true "True") /\
            api !! "prod_url" = Some (PyStr "https://api.example/graphql")
        | None => False
        end /\
        GraphqlClient.client c =
          Some {| transport_url := PyStr "https://api.example/graphql";
                  transport_headers := Some {[ "authorization" := "Bearer abc123" ]} |} /\
        execute_answer E (length (executes w)) = Raise TransportProtocolError
    | (Raise _, _) => False
    end).
  { vm_compute. repeat split; reflexivity. }
  destruct (GraphqlClient.__init__ E example_config empty_world) as [[c|e] w];
    [|destruct Hfacts].
  destruct Hfacts as (Hflag & Htok & Hs & Hcfg & Hcl & Hex).
  destruct (GraphqlClient._config c !! "api") as [api|] eqn:Hapi; [|destruct Hcfg].
  destruct Hcfg as [Hprod Hurl].
  exists c, w,
    {| transport_url := PyStr "https://api.example/graphql";
       transport_headers := Some {[ "authorization" := "Bearer abc123" ]} |}.
  split; [reflexivity|]. split; [exact Hcl|].
  pose proof (retry_reuses_cached_token E "query { robots }" ∅ c w 0%nat api
                (PyOther true "True") (PyStr "https://api.example/graphql")) as H.
  rewrite Htok in H. cbn zeta in H |- *.
  destruct H as (Hp & Htr & _ & Hsame).
  - exact Hflag.
  - reflexivity.
  - exact Hs.
  - reflexivity.
  - exact Hapi.
  - exact Hprod.
  - exact Hurl.
  - exact Hex.
  - split; [exact Hp|]; split; [exact Htr|]; apply Hsame; exact Hcl.
Defined.

(** X10. A client is built even when authentication fails.  When the token
    endpoint refuses the first fetch (status outside [200,300), timeout or
    another [RequestException]) and the configuration is otherwise in
    order (the schema loads, the [api] section names the URL, and
    [add_job] accepts the refresh job of the configured interval),
    [GraphqlClient(config)] returns normally: its transport has no headers
    at all, its token service holds no token, and the refresh scheduler has
    been started all the same. *)
Theorem client_is_built_without_token (E : env) (config : gmap string (gmap string pyval))
    (w : world) (auth : AuthService.t) (api : gmap string pyval) (production u : pyval) :
  AuthService.__init__ E config w = (Return auth, w) ->
  fetch_fails (post_answer E (length (posts w))) ->
  add_job_fault E (refresh_job auth) = None ->
  schema_fault E = None ->
  config !! "api" = Some api ->
  api !! "production_deployment" = Some production ->
  api !! (if truthy production then "prod_url" else "dev_url") = Some u ->
  exists c w',
    GraphqlClient.__init__ E config w = (Return c, w') /\
    GraphqlClient.client c = Some {| transport_url := u; transport_headers := None |} /\
    AuthService.__access_token (GraphqlClient._auth_service c) = PyNone /\
    transports w' = transports w ++ [ {| transport_url := u; transport_headers := None |} ] /\
    schedulers w' = schedulers w ++ [refresh_scheduler auth].
Proof.
  intros Hinit Hfail Hjob Hschema Hapi Hprod Hurl.
  destruct (__init___returns E config w auth w Hinit)
    as (? & ? & ? & ? & ? & _ & _ & _ & _ & _ & _ & _ & _ & _ & _ & Hauth).
  unfold GraphqlClient.__init__. run_monad. rewrite Hinit.
  destruct (_initialize_client_unauthenticated E
              {| GraphqlClient._reauthenticated := false;
                 GraphqlClient._config := config;
                 GraphqlClient._auth_service := auth;
                 GraphqlClient.client := None |} w api production u)
    as (c' & w' & Hrun & Hcl & Htok & Htr & Hsch);
    try assumption; try (subst auth; reflexivity).
  rewrite Hrun. exists c', w'. repeat split; assumption.
Qed.

Lemma client_is_built_without_token_witness :
  let E := answering (fun _ => status_response 401) (fun _ => Return ∅) in
  exists c w',
    GraphqlClient.__init__ E example_config empty_world = (Return c, w') /\
    GraphqlClient.client c =
      Some {| transport_url := PyStr "https://api.example/graphql";
              transport_headers := None |} /\
    AuthService.__access_token (GraphqlClient._auth_service c) = PyNone /\
    transports w' = transports empty_world ++
      [ {| transport_url := PyStr "https://api.example/graphql";
           transport_headers := None |} ] /\
    schedulers w' = schedulers empty_world ++ [refresh_scheduler example_auth].
Proof.
  intros E.
  apply (client_is_built_without_token E example_config empty_world example_auth
           {[ "production_deployment" := PyOther true "True";
              "prod_url" := PyStr "https://api.example/graphql";
              "dev_url" := PyStr "https://dev.example/graphql" ]}
           (PyOther true "True") (PyStr "https://api.example/graphql"));
    vm_compute; reflexivity.
Defined.

(** X11. A construction that fails on the [api] settings has already
    authenticated.  Without an [api] section, [GraphqlClient(config)]
    raises [TypeError] ([None] is subscripted), but only after the token
    service was built and asked for a header: one POST has gone out and,
    when that authentication returned, a refresh scheduler is running that
    no caller holds. *)
Theorem failed_client_construction_has_authenticated (E : env)
    (config : gmap string (gmap string pyval)) (w : world) (auth : AuthService.t) :
  AuthService.__init__ E config w = (Return auth, w) ->
  config !! "api" = None ->
  schema_fault E = None ->
  fst (AuthService._authenticate E (auth, w)) = Return tt ->
  exists w',
    GraphqlClient.__init__ E config w
    = (Raise (TypeError "'NoneType' object is not subscriptable"), w') /\
    posts w' = posts w ++ [token_request auth (AuthService.__login_credentials auth)
                             (AuthService.__timeout auth)] /\
    schedulers w' = schedulers w ++ [refresh_scheduler auth].
Proof.
  intros Hinit Hapi Hschema Hret.
  destruct (__init___returns E config w auth w Hinit)
    as (? & ? & ? & ? & ? & _ & _ & _ & _ & _ & _ & _ & _ & _ & _ & Hauth).
  assert (Htok : AuthService.__access_token auth = PyNone) by (subst auth; reflexivity).
  assert (Hs : AuthService.__auth_scheduler auth = None) by (subst auth; reflexivity).
  clear Hauth.
  unfold GraphqlClient.__init__, GraphqlClient._initialize_client,
    GraphqlClient.load_schema, GraphqlClient.subscript. run_monad. rewrite Hinit. cbn.
  rewrite get_auth_header_eq, get_bearer_token_eq, Htok. cbn [truthy negb orb].
  pose proof (_authenticate_posts E auth w) as Hposts.
  rewrite _authenticate_eq in Hret, Hposts |- *.
  pose proof (_handle_access_token_frame E (AuthService.__login_credentials auth)
                (AuthService.__timeout auth) auth w) as Hframe.
  destruct (AuthService._handle_access_token E _ _ (auth, w)) as [[[]|e] [a1 w1]];
    [|discriminate].
  destruct Hframe as [-> Hsame].
  pose proof (f_equal AuthService.__auth_scheduler Hsame) as Hs1.
  pose proof (f_equal AuthService.__refresh_interval Hsame) as Hi1.
  cbn in Hs1, Hi1. rewrite Hs in Hs1. rewrite Hs1 in Hret, Hposts |- *.
  destruct (add_job_fault E (refresh_job a1)); [discriminate|].
  cbn in Hposts |- *.
  destruct (negb (truthy (AuthService.__access_token a1))); cbn;
    rewrite Hschema; cbn; rewrite Hapi; cbn;
    (eexists; split; [reflexivity|]; cbn; split; [reflexivity|];
     unfold refresh_scheduler; rewrite Hi1; reflexivity).
Qed.

Lemma failed_client_construction_has_authenticated_witness :
  let E := answering (fun _ => token_response "abc123") (fun _ => Return ∅) in
  exists w',
    GraphqlClient.__init__ E no_api_config empty_world
    = (Raise (TypeError "'NoneType' object is not subscriptable"), w') /\
    posts w' = posts empty_world ++ [token_request example_auth "YUBiLmM6a2V5" 5] /\
    schedulers w' = schedulers empty_world ++ [refresh_scheduler example_auth].
Proof.
  intros E.
  apply (failed_client_construction_has_authenticated E no_api_config empty_world
           example_auth); vm_compute; reflexivity.
Defined.

(** X12. [query_async] cannot recover from a protocol error.  When its
    first send raises a transport protocol error, [query_async] raises in
    every case: the protocol error itself, the error of the
    re-initialization, the error of the retried send, or, when the retry
    was answered, [TypeError] from awaiting its result.  [_reauthenticated]
    is reset. *)
Theorem query_async_never_recovers (E : env) (q : string) (params : gmap string pyval)
    (c : GraphqlClient.t) (w : world) :
  execute_answer E (length (executes w)) = Raise TransportProtocolError ->
  (exists e, fst (GraphqlClient.query_async E q params (c, w)) = Raise e) /\
  GraphqlClient._reauthenticated (fst (snd (GraphqlClient.query_async E q params (c, w))))
  = false.
Proof.
  intros H1. unfold GraphqlClient.query_async, GraphqlClient.execute. run_monad.
  rewrite H1. cbn.
  destruct (GraphqlClient._reauthenticated c); cbn; [eauto|].
  destruct (GraphqlClient._initialize_client E _) as [[[]|e] [c2 w2]]; cbn; [|eauto].
  destruct (GraphqlClient.query E q params _) as [[response|e] [c3 w3]]; cbn; eauto.
Qed.

Lemma query_async_never_recovers_witness :
  let E := answering (fun _ => token_response "abc123") rejected_then_answered in
  exists e,
    fst (GraphqlClient.query_async E "query { robots }" ∅
           ({| GraphqlClient._reauthenticated := false;
               GraphqlClient._config := example_config;
               GraphqlClient._auth_service := authenticated_auth;
               GraphqlClient.client := None |}, authenticated_world)) = Raise e.
Proof.
  intros E.
  apply (query_async_never_recovers E "query { robots }" ∅
           {| GraphqlClient._reauthenticated := false;
              GraphqlClient._config := example_config;
              GraphqlClient._auth_service := authenticated_auth;
              GraphqlClient.client := None |} authenticated_world).
  reflexivity.
Defined.

(** * Properties of the websocket client *)

(** ** Rewriting [http] to [ws] *)

Section Rewriting.

Lemma startswith_true p s : startswith p s = true -> exists r, s = p +:+ r.
Proof.
  revert s. induction p as [|a p IH]; intros s H.
  - exists s. reflexivity.
  - destruct s as [|b s]; [discriminate|]. cbn in H.
    apply andb_true_iff in H as [Hab Hps].
    apply Ascii.eqb_eq in Hab as ->.
    destruct (IH s Hps) as [r ->]. exists r. reflexivity.
Qed.

Lemma replace_http_match r :
  str_replace "http" "ws" ("http" +:+ r) = "ws" +:+ str_replace "http" "ws" r.
Proof. reflexivity. Qed.

Lemma replace_http_other c r :
  startswith "http" (String c r) = false ->
  str_replace "http" "ws" (String c r) = String c (str_replace "http" "ws" r).
Proof.
  intros H. unfold str_replace. cbn [replace_from]. rewrite H. reflexivity.
Qed.

(** A character other than [w] at the head of the result was at the head
    of the text, outside every occurrence. *)
Lemma replace_http_head s c x :
  str_replace "http" "ws" s = String c x ->
  c <> "w"%char ->
  exists r, s = String c r /\ x = str_replace "http" "ws" r.
Proof.
  intros H Hc. destruct s as [|b r]; [discriminate|].
  destruct (startswith "http" (String b r)) eqn:Hm.
  - destruct (startswith_true _ _ Hm) as [r' Hr']. rewrite Hr', replace_http_match in H.
    injection H as <- _. contradiction.
  - rewrite replace_http_other in H by exact Hm. injection H as <- <-.
    exists r. split; reflexivity.
Qed.

(** The rewriting creates no occurrence. *)
Lemma replace_http_no_new c r :
  startswith "http" (String c r) = false ->
  startswith "http" (String c (str_replace "http" "ws" r)) = false.
Proof.
  intros H. destruct (startswith "http" (String c (str_replace "http" "ws" r))) eqn:Hm;
    [exfalso|reflexivity].
  destruct (startswith_true _ _ Hm) as [x Hx]. cbn in Hx. injection Hx as -> Hx.
  destruct (replace_http_head _ _ _ Hx) as (r1 & -> & Hx1); [discriminate|].
  symmetry in Hx1.
  destruct (replace_http_head _ _ _ Hx1) as (r2 & -> & Hx2); [discriminate|].
  symmetry in Hx2.
  destruct (replace_http_head _ _ _ Hx2) as (r3 & -> & _); [discriminate|].
  cbn in H. discriminate.
Qed.

Lemma replace_http_idempotent_on n s :
  (String.length s <= n)%nat ->
  str_replace "http" "ws" (str_replace "http" "ws" s) = str_replace "http" "ws" s.
Proof.
  revert s. induction n as [|n IH]; intros s Hlen.
  - destruct s; [reflexivity|cbn in Hlen; lia].
  - destruct s as [|c r]; [reflexivity|].
    destruct (startswith "http" (String c r)) eqn:Hm.
    + destruct (startswith_true _ _ Hm) as [r' Hr']. rewrite Hr' in Hlen |- *.
      rewrite replace_http_match.
      change ("ws" +:+ str_replace "http" "ws" r')
        with (String "w" (String "s" (str_replace "http" "ws" r'))).
      rewrite replace_http_other by reflexivity.
      rewrite replace_http_other.
      * rewrite IH; [reflexivity|].
        change (S (S (S (S (String.length r')))) <= S n)%nat in Hlen. lia.
      * destruct (str_replace "http" "ws" r'); reflexivity.
    + rewrite replace_http_other by exact Hm.
      rewrite replace_http_other by (apply replace_http_no_new; exact Hm).
      rewrite IH; [reflexivity|]. cbn in Hlen. lia.
Qed.
End Rewriting.

(** X13. Rewriting [http] to [ws] twice is rewriting once:
    [s.replace("http", "ws")] contains no [http] that a second
    [replace] could find.  The websocket client relies on it: it rewrites
    the [dev_url] in [_init_auth_service] and again in
    [_initialize_client]. *)
Theorem replace_http_idempotent (s : string) :
  str_replace "http" "ws" (str_replace "http" "ws" s) = str_replace "http" "ws" s.
Proof.
  apply (replace_http_idempotent_on (String.length s)). lia.
Qed.

Example replace_http_examples :
  str_replace "http" "ws" "https://dev.example/graphql" = "wss://dev.example/graphql" /\
  str_replace "http" "ws" "hthttptp" = "htwstp" /\
  str_replace "aa" "b" "aaaaa" = "bba" /\
  str_replace "" "-" "abc" = "-a-b-c-".
Proof. repeat split; reflexivity. Qed.

(** ** The retry of the websocket client *)

Section WssRetry.
Context (E : env).
Import GraphqlClientWss.

(** Unfolding of the state accessors of the websocket client. *)
Ltac run_wss :=
  unfold GraphqlClientWss.assign, GraphqlClientWss.self, GraphqlClientWss.config,
    GraphqlClientWss.on_world, GraphqlClientWss.on_auth_service in *;
  run_monad.

(** [_initialize_client] leaves [_reauthenticated], the configuration and
    the log of sent queries alone. *)
Lemma wss__initialize_client_frame c cw :
  let '(_, (c', cw')) := _initialize_client E (c, cw) in
  _reauthenticated c' = _reauthenticated c /\
  fst cw' = fst cw /\
  executes (snd cw') = executes (snd cw).
Proof.
  unfold _initialize_client, GraphqlClient.load_schema, GraphqlClient.subscript, getitem,
    py_replace.
  run_wss. destruct cw as [cfg w]. cbn [fst snd].
  pose proof (get_auth_header_world E (_auth_service c) w) as (_ & He & _).
  destruct (AuthService.get_auth_header E (_auth_service c, w)) as [[header|e] [a1 w1]];
    cbn in He |- *; [|auto].
  destruct (schema_fault E) as [e|]; cbn; [auto|].
  destruct (cfg !! "api") as [api|]; cbn; [|auto].
  destruct (api !! "production_deployment") as [production|]; cbn; [|auto].
  destruct (truthy production); cbn.
  - destruct (api !! "prod_url") as [[|u|z|b sh]|]; cbn; auto.
  - destruct (api !! "dev_url") as [[|u|z|b sh]|]; cbn; auto.
Qed.

Lemma wss_query_unfold q params sw :
  query E q params sw = query_body E (query E q params) q params sw.
Proof.
  rewrite query_equation_1. unfold query_body, execute. run_wss.
  destruct sw as [c cw]. cbn [fst snd].
  destruct (execute_answer E (length (executes (snd cw)))) as [response|e]; [reflexivity|].
  destruct e; cbn; try reflexivity.
  destruct (_reauthenticated c) as [[|]|] eqn:Hflag; cbn; try reflexivity.
  destruct (_initialize_client E _) as [[[]|e] [c2 cw2]]; cbn; [|reflexivity].
  destruct (lt_dec _ _) as [_|Hno]; [reflexivity|].
  exfalso. apply Hno. unfold retries_left. cbn. rewrite Hflag. lia.
Qed.

(** [query] of the websocket client, flattened. *)
Lemma wss_query_eq q params c cw :
  query E q params (c, cw) =
  match execute_answer E (length (executes (snd cw))) with
  | Return response =>
      (Return response, (set_reauthenticated (Some false) c, wss_after_send c q params cw))
  | Raise e =>
      if is_TransportProtocolError e then
        match _reauthenticated c with
        | None =>
            (Raise (OtherException "AttributeError"),
             (set_reauthenticated (Some false) c, wss_after_send c q params cw))
        | Some true =>
            (Raise e, (set_reauthenticated (Some false) c, wss_after_send c q params cw))
        | Some false =>
            match _initialize_client E (c, wss_after_send c q params cw) with
            | (Return _, (c2, cw2)) =>
                match execute_answer E (length (executes (snd cw2))) with
                | Return _ =>
                    (Return ∅,
                     (set_reauthenticated (Some false) c2, wss_after_send c2 q params cw2))
                | Raise e3 =>
                    (Raise e3,
                     (set_reauthenticated (Some false) c2, wss_after_send c2 q params cw2))
                end
            | (Raise e2, (c2, cw2)) => (Raise e2, (set_reauthenticated (Some false) c2, cw2))
            end
        end
      else (Raise e, (set_reauthenticated (Some false) c, wss_after_send c q params cw))
  end.
Proof.
  rewrite wss_query_unfold. unfold query_body, execute, wss_after_send. run_wss.
  fold (wss_sent c q params).
  destruct (execute_answer E (length (executes (snd cw)))) as [response|e]; [reflexivity|].
  destruct e; cbn; try reflexivity.
  destruct (_reauthenticated c) as [[|]|] eqn:Hflag; cbn; try reflexivity.
  destruct (_initialize_client E _) as [[[]|e] [c2 cw2]]; cbn; [|reflexivity].
  rewrite wss_query_unfold. unfold query_body, execute. run_wss. cbn.
  fold (wss_sent c2 q params).
  destruct (execute_answer E (length (executes (snd cw2)))) as [response|e]; [reflexivity|].
  destruct e; reflexivity.
Qed.

(** The instance that [__init__] returns has no [_reauthenticated]. *)
Lemma wss___init___flag cw c cw' :
  __init__ E cw = (Return c, cw') -> _reauthenticated c = None.
Proof.
  unfold __init__. run_monad.
  destruct (_init_auth_service E cw) as [[auth|e] cw1]; [|discriminate].
  pose proof (wss__initialize_client_frame
                {| _reauthenticated := None; _auth_service := auth; client := None |} cw1)
    as Hframe.
  destruct (_initialize_client E _) as [[[]|e] [c1 cw2]]; [|discriminate].
  destruct Hframe as (Hflag & _). intros [= <- _]. exact Hflag.
Qed.
End WssRetry.

(** X14. The first protocol error of a websocket client is not retried.
    [GraphqlClientWss.__init__] never assigns [_reauthenticated], so on the
    instance it returns a [query] whose send raises a transport protocol
    error raises [AttributeError] from line 218 instead: after this single
    send nothing is re-initialized, and the [finally] has created the
    attribute with the value [False]. *)
Theorem wss_first_protocol_error_is_not_retried (E : env) (cw0 : GraphqlClientWss.store)
    (c : GraphqlClientWss.t) (cw : GraphqlClientWss.store) (q : string)
    (params : gmap string pyval) :
  GraphqlClientWss.__init__ E cw0 = (Return c, cw) ->
  execute_answer E (length (executes (snd cw))) = Raise TransportProtocolError ->
  GraphqlClientWss.query E q params (c, cw) =
  (Raise (OtherException "AttributeError"),
   (GraphqlClientWss.set_reauthenticated (Some false) c, wss_after_send c q params cw)).
Proof.
  intros Hinit H1. rewrite wss_query_eq, H1. cbn.
  rewrite (wss___init___flag E cw0 c cw Hinit). reflexivity.
Qed.

Lemma wss_first_protocol_error_is_not_retried_witness :
  let E := answering (fun _ => token_response "abc123") rejected_then_answered in
  exists c cw,
    GraphqlClientWss.__init__ E (example_config, empty_world) = (Return c, cw) /\
    GraphqlClientWss.query E "subscription { robots }" ∅ (c, cw) =
    (Raise (OtherException "AttributeError"),
     (GraphqlClientWss.set_reauthenticated (Some false) c,
      wss_after_send c "subscription { robots }" ∅ cw)).
Proof.
  intros E.
  assert (Hfact :
    match GraphqlClientWss.__init__ E (example_config, empty_world) with
    | (Return _, cw) =>
        execute_answer E (length (executes (snd cw))) = Raise TransportProtocolError
    | (Raise _, _) => False
    end).
  { vm_compute. reflexivity. }
  destruct (GraphqlClientWss.__init__ E (example_config, empty_world)) as [[c|e] cw] eqn:Hc;
    [|destruct Hfact].
  exists c, cw. split; [reflexivity|].
  apply (wss_first_protocol_error_is_not_retried E (example_config, empty_world) c cw).
  - exact Hc.
  - exact Hfact.
Defined.

(** X15. Once a [query] of the websocket client has run, the retry is in
    place, with the defect of [GraphqlClient.query]: every call leaves
    [_reauthenticated] at [False]; and from then on a send that raises a
    protocol error is followed by one re-initialization and one second
    send, whose response is dropped: the call returns the empty dict. *)
Theorem wss_retry_after_first_call (E : env) (q : string) (params : gmap string pyval)
    (c : GraphqlClientWss.t) (cw : GraphqlClientWss.store) :
  GraphqlClientWss._reauthenticated (fst (snd (GraphqlClientWss.query E q params (c, cw))))
  = Some false /\
  (forall response,
     GraphqlClientWss._reauthenticated c = Some false ->
     execute_answer E (length (executes (snd cw))) = Raise TransportProtocolError ->
     execute_answer E (S (length (executes (snd cw)))) = Return response ->
     fst (GraphqlClientWss._initialize_client E (c, wss_after_send c q params cw))
     = Return tt ->
     fst (GraphqlClientWss.query E q params (c, cw)) = Return ∅ /\
     length (executes (snd (snd (snd (GraphqlClientWss.query E q params (c, cw))))))
     = (length (executes (snd cw)) + 2)%nat).
Proof.
  rewrite wss_query_eq.
  pose proof (wss__initialize_client_frame E c (wss_after_send c q params cw)) as Hframe.
  split.
  - destruct (execute_answer E (length (executes (snd cw)))) as [response|e];
      [reflexivity|].
    destruct (is_TransportProtocolError e); [|reflexivity].
    destruct (GraphqlClientWss._reauthenticated c) as [[|]|]; try reflexivity.
    destruct (GraphqlClientWss._initialize_client E _) as [[[]|e2] [c2 cw2]];
      [|reflexivity].
    destruct (execute_answer E (length (executes (snd cw2)))); reflexivity.
  - intros response Hflag H1 H2 Hinit. rewrite H1, Hflag. cbn.
    destruct (GraphqlClientWss._initialize_client E _) as [[[]|e2] [c2 cw2]];
      [|discriminate].
    destruct Hframe as (_ & _ & Hex). cbn in Hex.
    assert (Hlen : length (executes (snd cw2)) = S (length (executes (snd cw)))).
    { rewrite Hex, length_app. cbn. lia. }
    rewrite Hlen, H2. cbn. split; [reflexivity|].
    rewrite length_app, Hlen. cbn. lia.
Qed.

Lemma wss_retry_after_first_call_witness :
  let E := answering (fun _ => token_response "abc123") rejected_then_answered in
  let c := {| GraphqlClientWss._reauthenticated := Some false;
              GraphqlClientWss._auth_service := authenticated_auth;
              GraphqlClientWss.client := None |} in
  let cw := (example_config, authenticated_world) in
  fst (GraphqlClientWss.query E "subscription { robots }" ∅ (c, cw)) = Return ∅ /\
  length (executes (snd (snd (snd
            (GraphqlClientWss.query E "subscription { robots }" ∅ (c, cw))))))
  = (length (executes (snd cw)) + 2)%nat.
Proof.
  intros E c cw.
  destruct (wss_retry_after_first_call E "subscription { robots }" ∅ c cw) as [_ H].
  apply (H robot_response); vm_compute; reflexivity.
Defined.

(** ** The configuration of the websocket client *)

Section WssConfiguration.
Context (E : env).
Import GraphqlClientWss.

(** The configuration that [_init_auth_service] leaves in the store. *)
Lemma _init_auth_service_store cfg w api u :
  cfg !! "api" = Some api ->
  api !! "dev_url" = Some (PyStr u) ->
  fst (snd (_init_auth_service E (cfg, w)))
  = <["api" := <["dev_url" := PyStr (str_replace "http" "ws" u)]> api]> cfg.
Proof.
  intros Hapi Hdev. unfold _init_auth_service, GraphqlClient.subscript, getitem.
  cbn [fst snd]. rewrite Hapi, Hdev. cbn.
  destruct (AuthService.__init__ E _ w) as [r w']. reflexivity.
Qed.

(** [_initialize_client] does not assign the configuration. *)
Lemma wss__initialize_client_store c cw :
  fst (snd (snd (_initialize_client E (c, cw)))) = fst cw.
Proof.
  pose proof (wss__initialize_client_frame E c cw) as H.
  destruct (_initialize_client E (c, cw)) as [r [c' cw']]. apply H.
Qed.
End WssConfiguration.

(** X16. The websocket client needs a [dev_url] and rewrites it in the
    caller's configuration.  Without an [api] section the construction
    raises [TypeError], and without a [dev_url] it raises [KeyError], also
    for a production deployment; both before the token service is built,
    with nothing sent and the configuration untouched.  With the [dev_url]
    a string, the configuration dict the caller passed holds the rewritten
    URL once [__init__] is over, whether it returned or raised. *)
Theorem wss_rewrites_the_callers_configuration (E : env)
    (cfg : gmap string (gmap string pyval)) (w : world) :
  (cfg !! "api" = None ->
   GraphqlClientWss.__init__ E (cfg, w)
   = (Raise (TypeError "'NoneType' object is not subscriptable"), (cfg, w))) /\
  (forall api,
     cfg !! "api" = Some api -> api !! "dev_url" = None ->
     GraphqlClientWss.__init__ E (cfg, w) = (Raise (KeyError "dev_url"), (cfg, w))) /\
  (forall api u,
     cfg !! "api" = Some api -> api !! "dev_url" = Some (PyStr u) ->
     fst (snd (GraphqlClientWss.__init__ E (cfg, w)))
     = <["api" := <["dev_url" := PyStr (str_replace "http" "ws" u)]> api]> cfg).
Proof.
  split; [|split].
  - intros Hapi. unfold GraphqlClientWss.__init__, GraphqlClientWss._init_auth_service,
      GraphqlClient.subscript. run_monad. rewrite Hapi. reflexivity.
  - intros api Hapi Hdev. unfold GraphqlClientWss.__init__,
      GraphqlClientWss._init_auth_service, GraphqlClient.subscript, getitem.
    run_monad. rewrite Hapi, Hdev. reflexivity.
  - intros api u Hapi Hdev.
    pose proof (_init_auth_service_store E cfg w api u Hapi Hdev) as Hstore.
    unfold GraphqlClientWss.__init__. run_monad.
    destruct (GraphqlClientWss._init_auth_service E (cfg, w)) as [[auth|e] cw1];
      cbn [fst snd] in Hstore |- *; [|exact Hstore].
    pose proof (wss__initialize_client_store E
                  {| GraphqlClientWss._reauthenticated := None;
                     GraphqlClientWss._auth_service := auth;
                     GraphqlClientWss.client := None |} cw1) as Hkeep.
    destruct (GraphqlClientWss._initialize_client E _) as [[[]|e] [c1 cw2]];
      cbn [fst snd] in Hkeep |- *; congruence.
Qed.

Lemma wss_rewrites_the_callers_configuration_witness :
  let E := answering (fun _ => token_response "abc123") (fun _ => Return ∅) in
  GraphqlClientWss.__init__ E (production_only_config, empty_world)
  = (Raise (KeyError "dev_url"), (production_only_config, empty_world)) /\
  (fst (snd (GraphqlClientWss.__init__ E (example_config, empty_world))) !! "api")
    ≫= (fun api => api !! "dev_url")
  = Some (PyStr "wss://dev.example/graphql").
Proof.
  intros E.
  destruct (wss_rewrites_the_callers_configuration E production_only_config empty_world)
    as (_ & Hkey & _).
  destruct (wss_rewrites_the_callers_configuration E example_config empty_world)
    as (_ & _ & Hstore).
  split.
  - apply (Hkey {[ "production_deployment" := PyOther true "True";
                   "prod_url" := PyStr "https://api.example/graphql" ]});
      vm_compute; reflexivity.
  - rewrite (Hstore {[ "production_deployment" := PyOther true "True";
                       "prod_url" := PyStr "https://api.example/graphql";
                       "dev_url" := PyStr "https://dev.example/graphql" ]}
               "https://dev.example/graphql") by (vm_compute; reflexivity).
    vm_compute. reflexivity.
Defined.

Section WssTransport.
Context (E : env).
Import GraphqlClientWss.

Lemma _init_auth_service_eq cfg w api u :
  cfg !! "api" = Some api ->
  api !! "dev_url" = Some (PyStr u) ->
  _init_auth_service E (cfg, w) =
  (fst (AuthService.__init__ E
          (<["api" := <["dev_url" := PyStr (str_replace "http" "ws" u)]> api]> cfg) w),
   (<["api" := <["dev_url" := PyStr (str_replace "http" "ws" u)]> api]> cfg,
    snd (AuthService.__init__ E
           (<["api" := <["dev_url" := PyStr (str_replace "http" "ws" u)]> api]> cfg) w))).
Proof.
  intros Hapi Hdev. unfold _init_auth_service, GraphqlClient.subscript, getitem.
  cbn [fst snd]. rewrite Hapi, Hdev. cbn [py_replace].
  destruct (AuthService.__init__ E _ w) as [r w']. reflexivity.
Qed.

(** The transport that [_initialize_client] builds when it returns. *)
Lemma wss__initialize_client_url c cfg w api production v :
  cfg !! "api" = Some api ->
  api !! "production_deployment" = Some production ->
  api !! (if truthy production then "prod_url" else "dev_url") = Some (PyStr v) ->
  fst (_initialize_client E (c, (cfg, w))) = Return tt ->
  exists header,
    client (fst (snd (_initialize_client E (c, (cfg, w))))) =
    Some {| transport_url := PyStr (str_replace "http" "ws" v);
            transport_headers := header |}.
Proof.
  intros Hapi Hprod Hurl.
  unfold _initialize_client, GraphqlClient.load_schema, GraphqlClient.subscript, getitem,
    py_replace, assign, self, config, on_world, on_auth_service.
  run_monad.
  destruct (AuthService.get_auth_header E (_auth_service c, w)) as [[header|e] [a1 w1]];
    cbn; [|discriminate].
  destruct (schema_fault E) as [e|]; cbn; [discriminate|].
  rewrite Hapi. cbn. rewrite Hprod. cbn.
  destruct (truthy production); cbn; rewrite Hurl; cbn; intros _; eexists; reflexivity.
Qed.
End WssTransport.

(** X17. The URL of the websocket transport.  A websocket client that was
    constructed connects to the configured URL with [http] rewritten to
    [ws]: the [prod_url] of a production deployment, rewritten once, and
    the [dev_url] of a development deployment, which is rewritten in
    [_init_auth_service] and again in [_initialize_client], to the same
    result as one rewriting. *)
Theorem wss_transport_url (E : env) (cfg : gmap string (gmap string pyval)) (w : world)
    (api : gmap string pyval) (production : pyval) (u d : string)
    (c : GraphqlClientWss.t) (cw' : GraphqlClientWss.store) :
  cfg !! "api" = Some api ->
  api !! "production_deployment" = Some production ->
  api !! "dev_url" = Some (PyStr d) ->
  api !! (if truthy production then "prod_url" else "dev_url") = Some (PyStr u) ->
  GraphqlClientWss.__init__ E (cfg, w) = (Return c, cw') ->
  exists header,
    GraphqlClientWss.client c =
    Some {| transport_url := PyStr (str_replace "http" "ws" u);
            transport_headers := header |}.
Proof.
  intros Hapi Hprod Hdev Hurl.
  unfold GraphqlClientWss.__init__. unfold bind at 1.
  rewrite (_init_auth_service_eq E cfg w api d Hapi Hdev).
  set (cfg' := <["api" := <["dev_url" := PyStr (str_replace "http" "ws" d)]> api]> cfg).
  destruct (AuthService.__init__ E cfg' w) as [[auth|e] w1]; cbn [fst snd];
    [|discriminate].
  set (c0 := {| GraphqlClientWss._reauthenticated := None;
                GraphqlClientWss._auth_service := auth;
                GraphqlClientWss.client := None |}).
  assert (Hurl' : exists v,
    <["dev_url" := PyStr (str_replace "http" "ws" d)]> api
      !! (if truthy production then "prod_url" else "dev_url") = Some (PyStr v) /\
    str_replace "http" "ws" v = str_replace "http" "ws" u).
  { destruct (truthy production).
    - exists u. rewrite lookup_insert_ne by discriminate. split; [exact Hurl|reflexivity].
    - rewrite Hdev in Hurl. injection Hurl as <-.
      exists (str_replace "http" "ws" d). rewrite lookup_insert_eq.
      split; [reflexivity|]. apply (replace_http_idempotent_on (String.length d)). lia. }
  destruct Hurl' as (v & Hv & Hsame).
  pose proof (wss__initialize_client_url E c0 cfg' w1
                (<["dev_url" := PyStr (str_replace "http" "ws" d)]> api) production v)
    as Hbuilt.
  match goal with
  | |- context [GraphqlClientWss._initialize_client E ?x] =>
      change (GraphqlClientWss._initialize_client E (c0, (cfg', w1)))
        with (GraphqlClientWss._initialize_client E x) in Hbuilt;
      destruct (GraphqlClientWss._initialize_client E x) as [[[]|e] [c1 cw2]]
  end; [|discriminate].
  intros [= <- _]. rewrite <- Hsame. apply Hbuilt.
  - subst cfg'. apply lookup_insert_eq.
  - rewrite lookup_insert_ne by discriminate. exact Hprod.
  - exact Hv.
  - reflexivity.
Qed.

Lemma wss_transport_url_witness :
  let E := answering (fun _ => token_response "abc123") (fun _ => Return ∅) in
  exists c cw' header,
    GraphqlClientWss.__init__ E (dev_config, empty_world) = (Return c, cw') /\
    GraphqlClientWss.client c =
    Some {| transport_url := PyStr (str_replace "http" "ws" "https://dev.example/graphql");
            transport_headers := header |}.
Proof.
  intros E.
  assert (Hfact :
    match GraphqlClientWss.__init__ E (dev_config, empty_world) with
    | (Return _, _) => True
    | (Raise _, _) => False
    end).
  { vm_compute. exact I. }
  destruct (GraphqlClientWss.__init__ E (dev_config, empty_world)) as [[c|e] cw'] eqn:Hc;
    [|destruct Hfact].
  destruct (wss_transport_url E dev_config empty_world
              {[ "production_deployment" := PyOther false "False";
                 "prod_url" := PyStr "https://api.example/graphql";
                 "dev_url" := PyStr "https://dev.example/graphql" ]}
              (PyOther false "False") "https://dev.example/graphql"
              "https://dev.example/graphql" c cw')
    as [header Hcl].
  - vm_compute. reflexivity.
  - vm_compute. reflexivity.
  - vm_compute. reflexivity.
  - vm_compute. reflexivity.
  - exact Hc.
  - exists c, cw', header. split; [reflexivity | exact Hcl].
Defined.
